(** * Resource governor: shallow embedding of the adjustment engine

    The development follows two source files of the repository,
    [mining_environment/scripts/utils.py] (the per-process data model and
    its sampler) and [mining_environment/scripts/resource_manager.py] (the
    OS adapters, [apply_cloak_strategy], [restore_resources] and the
    singleton supervisor).

    Conventions.
    - An [int] is a [Z].  In the sampler and in the adapters that only pass
      numbers on, a [float] is a rational [Q].  Where the code computes on
      floats that a caller hands in ([adjust_gpu_usage]), a [float] is an
      IEEE-754 binary64 value, with NaN, infinities and rounding: the
      library's [spec_float].
    - A Python value that may be [None] is a [pyval].
    - A method that can raise returns an [outcome]; a method that also
      mutates its object or performs I/O lives in the state-and-exception
      monad [M].
    - Everything the code does to the outside world (log records, external
      commands, device-SDK calls) is appended to a trace of [event]s; what
      the outside world answers is read from an environment record. *)

From Stdlib Require Import ZArith QArith Lia Lqa Ascii String SpecFloat.
From stdpp Require Import base option list strings gmap fin_maps.

Open Scope string_scope.
Open Scope list_scope.
Open Scope Z_scope.

#[local] Set Warnings "-clear-no-such-hyp".

(** ** Python values, exceptions and outcomes *)

Inductive pyval : Type :=
| PNone
| PInt (z : Z)
| PFloat (q : Q).

Inductive exn : Type :=
| TypeError
| KeyError
| ZeroDivisionError
| CalledProcessError
| NVMLError
| NoSuchProcess
| RuntimeError
| OverflowError
| OtherError (what : string).

Inductive outcome (A : Type) : Type :=
| Ret (a : A)
| Raise (e : exn).
Arguments Ret {A} a.
Arguments Raise {A} e.

(** [bool(v)]: [None], [0] and [0.0] are falsy. *)
Definition truthy (v : pyval) : bool :=
  match v with
  | PNone => false
  | PInt z => negb (z =? 0)
  | PFloat q => negb (Qeq_bool q 0)
  end.

Definition as_Q (v : pyval) : option Q :=
  match v with
  | PNone => None
  | PInt z => Some (inject_Z z)
  | PFloat q => Some q
  end.

Definition Qlt_bool (x y : Q) : bool := negb (Qle_bool y x).

(** Ordering comparisons: comparing with [None] raises [TypeError]. *)
Definition py_gt (a b : pyval) : outcome bool :=
  match as_Q a, as_Q b with
  | Some x, Some y => Ret (Qlt_bool y x)
  | _, _ => Raise TypeError
  end.

Definition py_le (a b : pyval) : outcome bool :=
  match as_Q a, as_Q b with
  | Some x, Some y => Ret (Qle_bool x y)
  | _, _ => Raise TypeError
  end.

(** [v * k] for an integer literal [k]. *)
Definition py_mul_int (v : pyval) (k : Z) : outcome pyval :=
  match v with
  | PNone => Raise TypeError
  | PInt z => Ret (PInt (z * k))
  | PFloat q => Ret (PFloat (q * inject_Z k))
  end.

(** [range(v)]: only an [int] is accepted. *)
Definition py_range (v : pyval) : outcome (list Z) :=
  match v with
  | PInt n => Ret (Z.of_nat <$> seq 0 (Z.to_nat n))
  | _ => Raise TypeError
  end.

(** ** Numbers in float arithmetic

    A number is an unbounded [int] or a [float], a binary64 value with 53
    bits of precision. *)
Inductive pynum : Type :=
| NInt (n : Z)
| NFloat (x : spec_float).

(** The float nearest to an integer (ties to even); an infinity when the
    integer is out of range. *)
Definition float_of_Z (n : Z) : spec_float := binary_normalize 53 1024 n 0 false.

(** [float(n)], as the operators convert an [int] operand: out of range it
    raises [OverflowError]. *)
Definition float_of_int (n : Z) : outcome spec_float :=
  match float_of_Z n with
  | S754_infinity _ => Raise OverflowError
  | x => Ret x
  end.

(** [a + b]: exact on two ints, float addition otherwise. *)
Definition num_add (a b : pynum) : outcome pynum :=
  match a, b with
  | NInt m, NInt n => Ret (NInt (m + n))
  | NFloat x, NFloat y => Ret (NFloat (SFadd 53 1024 x y))
  | NFloat x, NInt n =>
      match float_of_int n with
      | Ret y => Ret (NFloat (SFadd 53 1024 x y))
      | Raise e => Raise e
      end
  | NInt m, NFloat y =>
      match float_of_int m with
      | Ret x => Ret (NFloat (SFadd 53 1024 x y))
      | Raise e => Raise e
      end
  end.

(** An int is compared with a float by value, without rounding the int:
    [n] against [(-1)^s * m * 2^e]. *)
Definition int_float_compare (n : Z) (x : spec_float) : option comparison :=
  match x with
  | S754_nan => None
  | S754_infinity s => Some (if s then Gt else Lt)
  | S754_zero _ => Some (n ?= 0)
  | S754_finite s m e =>
      let v := if s then Z.neg m else Z.pos m in
      Some match e with
           | Z.neg d => (n * 2 ^ Z.pos d) ?= v
           | _ => n ?= v * 2 ^ e
           end
  end.

(** Every comparison with NaN is unordered. *)
Definition num_compare (a b : pynum) : option comparison :=
  match a, b with
  | NInt m, NInt n => Some (m ?= n)
  | NFloat x, NFloat y => SFcompare x y
  | NInt m, NFloat y => int_float_compare m y
  | NFloat x, NInt n => CompOpp <$> int_float_compare n x
  end.

(** [a < b] and [a <= b]: false when unordered. *)
Definition num_lt (a b : pynum) : bool :=
  match num_compare a b with
  | Some Lt => true
  | _ => false
  end.

Definition num_le (a b : pynum) : bool :=
  match num_compare a b with
  | Some Lt | Some Eq => true
  | _ => false
  end.

(** Two-argument [max] and [min] keep their first argument unless the
    second is strictly larger (smaller): [max(a, b)] tests [b > a] and
    [min(a, b)] tests [b < a], so an unordered second argument, or first,
    leaves the first. *)
Definition py_max (a b : pynum) : pynum := if num_lt a b then b else a.
Definition py_min (a b : pynum) : pynum := if num_lt b a then b else a.

(** ** The state-and-exception monad *)

Definition M (St A : Type) : Type := St -> outcome A * St.

Definition ret {St A} (a : A) : M St A := fun s => (Ret a, s).

Definition bind {St A B} (m : M St A) (k : A -> M St B) : M St B :=
  fun s =>
    match m s with
    | (Ret a, s') => k a s'
    | (Raise e, s') => (Raise e, s')
    end.

Definition raise {St A} (e : exn) : M St A := fun s => (Raise e, s).

Definition lift {St A} (o : outcome A) : M St A := fun s => (o, s).

(** [try: m except Exception as e: h e]; the state reached when the
    exception was raised is the one the handler starts from. *)
Definition try_except {St A} (m : M St A) (h : exn -> M St A) : M St A :=
  fun s =>
    match m s with
    | (Ret a, s') => (Ret a, s')
    | (Raise e, s') => h e s'
    end.

Definition get {St} : M St St := fun s => (Ret s, s).
Definition modify {St} (f : St -> St) : M St unit := fun s => (Ret tt, f s).

(** [when b m] is [if b: m]. *)
Definition when {St} (b : bool) (m : M St unit) : M St unit :=
  if b then m else ret tt.

Declare Scope py_scope.
Delimit Scope py_scope with py.
Notation "x <- m ;; k" := (bind m (fun x => k))
  (at level 100, m at next level, right associativity) : py_scope.
Notation "m ;; k" := (bind m (fun _ => k))
  (at level 100, right associativity) : py_scope.
Open Scope py_scope.

Fixpoint for_each {St A} (l : list A) (body : A -> M St unit) : M St unit :=
  match l with
  | [] => ret tt
  | x :: l' => body x ;; for_each l' body
  end.

(** A list comprehension whose element expression may raise. *)
Fixpoint comprehension {St A B} (l : list A) (f : A -> M St B) : M St (list B) :=
  match l with
  | [] => ret []
  | x :: l' => y <- f x ;; ys <- comprehension l' f ;; ret (y :: ys)
  end.

(** ** Data shared by the two source files *)

(** [MiningProcess] of utils.py.  The logger and the [GPUManager] singleton
    the constructor stores are not fields here: log records go to the trace
    and the manager is read from the environment of the sampler. *)
Record MiningProcess : Type := mkMiningProcess {
  pid : Z;
  name : string;
  priority : Z;
  cpu_usage : Q;
  gpu_usage : Q;
  memory_usage : Q;
  disk_io : Q;
  network_io : Q;
  mark : Z;
  network_interface : string;
  _prev_bytes_sent : option Z;
  _prev_bytes_recv : option Z;
  is_cloaked : bool;
  gpu_initialized : bool
}.

Inductive level : Type := DEBUG | INFO | WARNING | ERROR.

(** The knob adapters of [SharedResourceManager]; [ECall] below marks the
    entry into one of them. *)
Inductive adapter : Type :=
| CpuFrequency
| CpuThreads
| RamAllocation
| GpuPowerLimit
| DiskIoPriority
| NetworkBandwidth.

Inductive event : Type :=
| ELog (l : level) (msg : string)
| ECall (a : adapter) (p : Z) (v : pyval)
| ETaskset (cores : list Z) (p : Z)
| EIonice (cls : pyval) (p : Z)
| ENvmlInit
| ENvmlDeviceGetHandleByIndex (i : Z)
| ENvmlDeviceSetPowerManagementLimit (handle : Z) (mw : pyval)
| ENvmlDeviceGetPowerManagementLimit (handle : Z)
| ENvmlShutdown
| ESetGpuUsage (p : Z) (percent : list pynum)
| EConfigureNetworkInterface (iface : string) (bw : pyval)
| EDropCaches.

(** * resource_manager.py *)
Module ResourceManager.

(** What the host answers.  An external command or SDK call that fails
    answers with the exception it raises. *)
Record os_env : Type := {
  os_cpu_count : pyval;
  os_taskset : list Z -> Z -> option exn;
  os_ionice : pyval -> Z -> option exn;
  os_nvmlInit : option exn;
  os_nvmlDeviceGetHandleByIndex : Z -> outcome Z;
  os_nvmlDeviceSetPowerManagementLimit : Z -> pyval -> option exn;
  os_nvmlDeviceGetPowerManagementLimit : Z -> outcome Z;
  os_nvmlShutdown : option exn;
  os_set_gpu_usage : Z -> list pynum -> option exn;
  os_drop_caches : option exn
}.

(** The sections of the JSON configuration the modelled methods read. *)
Record config : Type := {
  optimization_parameters : option (gmap string pynum)
}.

(** The mutable part of a [SharedResourceManager] together with the trace
    of everything it did. *)
Record world : Type := {
  original_resource_limits : gmap Z (gmap string pyval);
  trace : list event
}.

Definition emit (e : event) : M world unit :=
  modify (fun w => {| original_resource_limits := original_resource_limits w;
                      trace := trace w ++ [e] |}).

Definition log (l : level) (msg : string) : M world unit := emit (ELog l msg).

(** An external call: it is recorded, then it returns or raises. *)
Definition run (e : event) (answer : option exn) : M world unit :=
  emit e ;;
  match answer with
  | None => ret tt
  | Some x => raise x
  end.

Definition run_val {A} (e : event) (answer : outcome A) : M world A :=
  emit e ;; lift answer.

(** The strategy factory, the strategies, [is_gpu_initialized], the four
    [get_current_*] readers and [execute_adjustments] are called by
    [apply_cloak_strategy] but are not part of the source files at hand:
    they are taken as they come, as arbitrary computations on the world. *)
Record collaborators (strategy : Type) : Type := {
  is_gpu_initialized : M world bool;
  create_strategy : string -> config -> bool -> M world (option strategy);
  strategy_apply : strategy -> MiningProcess -> M world (list (string * pyval));
  get_current_cpu_frequency : Z -> M world pyval;
  get_current_gpu_power_limit : Z -> M world pyval;
  get_current_network_bandwidth_limit : Z -> M world pyval;
  get_current_ionice_class : Z -> M world pyval;
  execute_adjustments : list (string * pyval) -> MiningProcess -> M world unit
}.
Arguments is_gpu_initialized {strategy} c.
Arguments create_strategy {strategy} c.
Arguments strategy_apply {strategy} c.
Arguments get_current_cpu_frequency {strategy} c.
Arguments get_current_gpu_power_limit {strategy} c.
Arguments get_current_network_bandwidth_limit {strategy} c.
Arguments get_current_ionice_class {strategy} c.
Arguments execute_adjustments {strategy} c.

Section Adapters.
Variable os : os_env.
Variable cfg : config.

Definition assign_process_resources (pid : Z) (resources : gmap string pyval)
    (process_name : string) : M world unit :=
  match resources !! "cpu_threads" with
  | Some desired_threads =>
      try_except
        (let cpu_count := os_cpu_count os in
         too_many <- lift (py_gt desired_threads cpu_count) ;;
         invalid <- (if too_many : bool then ret true
                     else lift (py_le desired_threads (PInt 0))) ;;
         if invalid : bool then
           log WARNING "Requested CPU threads ({desired_threads}) invalid. Skipping."
         else
           cores <- lift (py_range desired_threads) ;;
           run (ETaskset cores pid) (os_taskset os cores pid) ;;
           log INFO "Applied {desired_threads} CPU threads limit for process {process_name} (PID: {pid}).")
        (fun e =>
           log ERROR "Error adjusting CPU threads using taskset for {process_name} (PID: {pid}): {e}")
  | None => ret tt
  end ;;
  when (bool_decide (is_Some (resources !! "memory")))
    (log WARNING "Cannot limit RAM for process {process_name} (PID: {pid}) without cgroup_manager. Skipping.") ;;
  when (bool_decide (is_Some (resources !! "cpu_freq")))
    (log WARNING "Cannot directly adjust CPU frequency for process {process_name} (PID: {pid}) without using cgroup. Skipping.") ;;
  when (bool_decide (is_Some (resources !! "disk_io_limit_mbps")))
    (log WARNING "Cannot directly adjust Disk I/O for process {process_name} (PID: {pid}) without using cgroup. Skipping.").

Definition adjust_cpu_threads (pid : Z) (cpu_threads : pyval) (process_name : string)
    : M world unit :=
  emit (ECall CpuThreads pid cpu_threads) ;;
  try_except
    (assign_process_resources pid {[ "cpu_threads" := cpu_threads ]} process_name ;;
     log INFO "Adjusted CPU threads to {cpu_threads} for process {process_name} (PID: {pid}).")
    (fun e => log ERROR "Error adjusting CPU threads for process {process_name} (PID: {pid}): {e}").

Definition adjust_ram_allocation (pid : Z) (ram_allocation_mb : pyval) (process_name : string)
    : M world unit :=
  emit (ECall RamAllocation pid ram_allocation_mb) ;;
  try_except
    (assign_process_resources pid {[ "memory" := ram_allocation_mb ]} process_name ;;
     log INFO "Adjusted RAM limit to {ram_allocation_mb}MB for process {process_name} (PID: {pid}).")
    (fun e => log ERROR "Error adjusting RAM for process {process_name} (PID: {pid}): {e}").

Definition adjust_cpu_frequency (pid : Z) (frequency : pyval) (process_name : string)
    : M world unit :=
  emit (ECall CpuFrequency pid frequency) ;;
  try_except
    (assign_process_resources pid {[ "cpu_freq" := frequency ]} process_name ;;
     log INFO "Set CPU frequency to {frequency}MHz for process {process_name} (PID: {pid}).")
    (fun e => log ERROR "Error adjusting CPU frequency for process {process_name} (PID: {pid}): {e}").

(** The method has no [return] statement: what the caller gets is [None]. *)
Definition adjust_gpu_power_limit (pid : Z) (power_limit : pyval) (process_name : string)
    : M world pyval :=
  emit (ECall GpuPowerLimit pid power_limit) ;;
  try_except
    (run ENvmlInit (os_nvmlInit os) ;;
     handle <- run_val (ENvmlDeviceGetHandleByIndex 0) (os_nvmlDeviceGetHandleByIndex os 0) ;;
     mw <- lift (py_mul_int power_limit 1000) ;;
     run (ENvmlDeviceSetPowerManagementLimit handle mw)
         (os_nvmlDeviceSetPowerManagementLimit os handle mw) ;;
     run ENvmlShutdown (os_nvmlShutdown os) ;;
     log INFO "Set GPU power limit to {power_limit}W for process {process_name} (PID: {pid}).")
    (fun e => log ERROR "Error adjusting GPU power for process {process_name} (PID: {pid}): {e}") ;;
  ret PNone.

Definition adjust_disk_io_priority (pid : Z) (ionice_class : pyval) (process_name : string)
    : M world unit :=
  emit (ECall DiskIoPriority pid ionice_class) ;;
  try_except
    (run (EIonice ionice_class pid) (os_ionice os ionice_class pid) ;;
     log INFO "Set ionice class to {ionice_class} for process {process_name} (PID: {pid}).")
    (fun e =>
       match e with
       | CalledProcessError => log ERROR "Error executing ionice: {e}"
       | _ => log ERROR "Error adjusting Disk I/O priority for process {process_name} (PID: {pid}): {e}"
       end).

Definition drop_caches : M world unit :=
  try_except
    (run EDropCaches (os_drop_caches os) ;;
     log INFO "Reduced cache usage using drop_caches.")
    (fun e => log ERROR "Error reducing cache usage: {e}").

(** The body is [pass]. *)
Definition configure_network_interface (interface : string) (bandwidth_limit : pyval)
    : M world unit :=
  emit (EConfigureNetworkInterface interface bandwidth_limit).

Definition apply_network_cloaking (interface : string) (bandwidth_limit : pyval)
    (process : MiningProcess) : M world unit :=
  try_except
    (configure_network_interface interface bandwidth_limit)
    (fun e =>
       log ERROR "Error applying network cloaking for process {process.name} (PID: {process.pid}): {e}" ;;
       raise e).

Definition adjust_network_bandwidth (process : MiningProcess) (bandwidth_limit_mbps : pyval)
    : M world unit :=
  emit (ECall NetworkBandwidth (pid process) bandwidth_limit_mbps) ;;
  try_except
    (apply_network_cloaking (network_interface process) bandwidth_limit_mbps process ;;
     log INFO "Adjusted network bandwidth limit to {bandwidth_limit_mbps} Mbps for process {process.name} (PID: {process.pid}).")
    (fun e => log ERROR "Error adjusting Network for process {process.name} (PID: {process.pid}): {e}").

(** [config["optimization_parameters"]] raises [KeyError] when the section
    is missing; it is looked up once per element of the comprehension.
    The elements and the step are numbers, ints or floats. *)
Definition adjust_gpu_usage (process : MiningProcess) (gpu_usage_percent : list pynum)
    : M world unit :=
  try_except
    (new_gpu_usage_percent <-
       comprehension gpu_usage_percent (fun gpu =>
         match optimization_parameters cfg with
         | None => raise KeyError
         | Some params =>
             let step := default (NInt 10) (params !! "gpu_power_adjustment_step") in
             sum <- lift (num_add gpu step) ;;
             ret (py_min (py_max sum (NInt 0)) (NInt 100))
         end) ;;
     run (ESetGpuUsage (pid process) new_gpu_usage_percent)
         (os_set_gpu_usage os (pid process) new_gpu_usage_percent) ;;
     log INFO "Adjusted GPU usage to {new_gpu_usage_percent} for process {process.name} (PID: {process.pid}).")
    (fun e => log ERROR "Error adjusting GPU usage for process {process.name} (PID: {process.pid}): {e}").

Definition throttle_cpu_based_on_load (process : MiningProcess) (load_percent : pyval)
    : M world unit :=
  try_except
    (over_80 <- lift (py_gt load_percent (PInt 80)) ;;
     new_freq <-
       (if over_80 : bool then ret 2000
        else
          over_50 <- lift (py_gt load_percent (PInt 50)) ;;
          if over_50 : bool then ret 2500 else ret 3000) ;;
     adjust_cpu_frequency (pid process) (PInt new_freq) (name process) ;;
     log INFO "Adjusted CPU frequency to {new_freq}MHz for process {process.name} (PID: {process.pid}) based on load {load_percent}%.")
    (fun e => log ERROR "Error adjusting CPU frequency based on load for process {process.name} (PID: {process.pid}): {e}").

(** *** apply_cloak_strategy *)

Definition set_limits (f : gmap Z (gmap string pyval) -> gmap Z (gmap string pyval))
    : M world unit :=
  modify (fun w => {| original_resource_limits := f (original_resource_limits w);
                      trace := trace w |}).

(** [self.original_resource_limits[pid][key] = value] *)
Definition record_original (pid : Z) (key : string) (value : pyval) : M world unit :=
  w <- get ;;
  match original_resource_limits w !! pid with
  | None => raise KeyError
  | Some saved => set_limits (insert pid (<[key := value]> saved))
  end.

Section Cloak.
Context {strategy : Type}.
Variable c : collaborators strategy.

(** Lines 234-251: the entry of the pid is created when missing, then every
    recognised key of the adjustments has its current value read and
    stored. *)
Definition save_originals (pid : Z) (adjustments : list (string * pyval)) : M world unit :=
  w <- get ;;
  when (bool_decide (original_resource_limits w !! pid = None))
    (set_limits (insert pid ∅)) ;;
  for_each adjustments (fun '(key, value) =>
    if String.eqb key "cpu_freq" then
      original_freq <- get_current_cpu_frequency c pid ;;
      record_original pid "cpu_freq" original_freq
    else if String.eqb key "gpu_power_limit" then
      original_power_limit <- get_current_gpu_power_limit c pid ;;
      record_original pid "gpu_power_limit" original_power_limit
    else if String.eqb key "network_bandwidth_limit_mbps" then
      original_bw_limit <- get_current_network_bandwidth_limit c pid ;;
      record_original pid "network_bandwidth_limit_mbps" original_bw_limit
    else if String.eqb key "ionice_class" then
      original_ionice_class <- get_current_ionice_class c pid ;;
      record_original pid "ionice_class" original_ionice_class
    else ret tt).

Definition apply_cloak_strategy (strategy_name : string) (process : MiningProcess)
    : M world unit :=
  strategy <-
    try_except
      (log DEBUG "Creating strategy {strategy_name} for process {process.name} (PID: {process.pid})" ;;
       gpu <- is_gpu_initialized c ;;
       create_strategy c strategy_name cfg gpu)
      (fun e => log ERROR "Cannot create strategy {strategy_name}: {e}" ;; raise e) ;;
  match strategy with
  | Some strategy =>
      try_except
        (adjustments <- strategy_apply c strategy process ;;
         match adjustments with
         | _ :: _ =>
             log INFO "Applying {strategy_name} adjustments for process {process.name} (PID: {process.pid}): {adjustments}" ;;
             save_originals (pid process) adjustments ;;
             execute_adjustments c adjustments process
         | [] =>
             log WARNING "No adjustments applied for strategy {strategy_name} for process {process.name} (PID: {process.pid})."
         end)
        (fun e =>
           log ERROR "Error applying cloaking strategy {strategy_name} for process {process.name} (PID: {process.pid}): {e}" ;;
           raise e)
  | None =>
      log WARNING "Cloaking strategy {strategy_name} was not created successfully for process {process.name} (PID: {process.pid})." ;;
      raise RuntimeError
  end.

End Cloak.

(** *** restore_resources *)

(** [value = original_limits.get(key)] followed by [if value: ...]. *)
Definition if_saved (original_limits : gmap string pyval) (key : string)
    (body : pyval -> M world unit) : M world unit :=
  let value := default PNone (original_limits !! key) in
  when (truthy value) (body value).

Definition restore_resources (process : MiningProcess) : M world unit :=
  try_except
    (let pid := pid process in
     let process_name := name process in
     w <- get ;;
     match original_resource_limits w !! pid with
     | Some original_limits =>
         if bool_decide (size original_limits = 0%nat) then
           log WARNING "Original resource limits not found for process {process_name} (PID: {pid})."
         else
           if_saved original_limits "cpu_freq" (fun cpu_freq =>
             adjust_cpu_frequency pid cpu_freq process_name ;;
             log INFO "Restored CPU frequency to {cpu_freq}MHz for process {process_name} (PID: {pid}).") ;;
           if_saved original_limits "cpu_threads" (fun cpu_threads =>
             adjust_cpu_threads pid cpu_threads process_name ;;
             log INFO "Restored CPU threads to {cpu_threads} for process {process_name} (PID: {pid}).") ;;
           if_saved original_limits "ram_allocation_mb" (fun ram_allocation_mb =>
             adjust_ram_allocation pid ram_allocation_mb process_name ;;
             log INFO "Restored RAM limit to {ram_allocation_mb}MB for process {process_name} (PID: {pid}).") ;;
           if_saved original_limits "gpu_power_limit" (fun gpu_power_limit =>
             adjust_gpu_power_limit pid gpu_power_limit process_name ;;
             log INFO "Restored GPU power limit to {gpu_power_limit}W for process {process_name} (PID: {pid}).") ;;
           if_saved original_limits "ionice_class" (fun ionice_class =>
             adjust_disk_io_priority pid ionice_class process_name ;;
             log INFO "Restored ionice class to {ionice_class} for process {process_name} (PID: {pid}).") ;;
           if_saved original_limits "network_bandwidth_limit_mbps" (fun network_bandwidth_limit_mbps =>
             adjust_network_bandwidth process network_bandwidth_limit_mbps ;;
             log INFO "Restored network bandwidth limit to {network_bandwidth_limit_mbps} Mbps for process {process_name} (PID: {pid}).") ;;
           w' <- get ;;
           match original_resource_limits w' !! pid with
           | Some _ => set_limits (delete pid)
           | None => raise KeyError
           end ;;
           log INFO "Restored all resources for process {process_name} (PID: {pid})."
     | None =>
         log WARNING "Original resource limits not found for process {process_name} (PID: {pid})."
     end)
    (fun e =>
       log ERROR "Error while restoring resources for process {process.name} (PID: {process.pid}): {e}" ;;
       raise e).

End Adapters.

End ResourceManager.

(** * utils.py *)
Module Utils.

(** What psutil and the device SDK answer during one sample.  The two SDK
    calls made per device ([nvmlDeviceGetHandleByIndex] and
    [nvmlDeviceGetMemoryInfo]) are one reading: the total and the used
    bytes of the device, or the exception either call raised. *)
Record sample_env : Type := {
  ps_process : option exn;
  ps_cpu_percent : outcome Q;
  ps_memory_percent : outcome Q;
  ps_io_counters : outcome (Z * Z);
  ps_net_io_counters : outcome (gmap string (Z * Z));
  gm_gpu_initialized : bool;
  gm_gpu_count : nat;
  gm_memory_info : Z -> outcome (Z * Z)
}.

(** The sampled object and the log. *)
Record ustate : Type := {
  self : MiningProcess;
  ulog : list event
}.

Definition ulog_event (l : level) (msg : string) : M ustate unit :=
  modify (fun s => {| self := self s; ulog := ulog s ++ [ELog l msg] |}).

Definition update_self (f : MiningProcess -> MiningProcess) : M ustate unit :=
  modify (fun s => {| self := f (self s); ulog := ulog s |}).

Definition set_cpu_usage (v : Q) (p : MiningProcess) : MiningProcess :=
  mkMiningProcess (pid p) (name p) (priority p) v (gpu_usage p) (memory_usage p)
    (disk_io p) (network_io p) (mark p) (network_interface p)
    (_prev_bytes_sent p) (_prev_bytes_recv p) (is_cloaked p) (gpu_initialized p).

Definition set_gpu_usage (v : Q) (p : MiningProcess) : MiningProcess :=
  mkMiningProcess (pid p) (name p) (priority p) (cpu_usage p) v (memory_usage p)
    (disk_io p) (network_io p) (mark p) (network_interface p)
    (_prev_bytes_sent p) (_prev_bytes_recv p) (is_cloaked p) (gpu_initialized p).

Definition set_memory_usage (v : Q) (p : MiningProcess) : MiningProcess :=
  mkMiningProcess (pid p) (name p) (priority p) (cpu_usage p) (gpu_usage p) v
    (disk_io p) (network_io p) (mark p) (network_interface p)
    (_prev_bytes_sent p) (_prev_bytes_recv p) (is_cloaked p) (gpu_initialized p).

Definition set_disk_io (v : Q) (p : MiningProcess) : MiningProcess :=
  mkMiningProcess (pid p) (name p) (priority p) (cpu_usage p) (gpu_usage p) (memory_usage p)
    v (network_io p) (mark p) (network_interface p)
    (_prev_bytes_sent p) (_prev_bytes_recv p) (is_cloaked p) (gpu_initialized p).

Definition set_network_io (v : Q) (p : MiningProcess) : MiningProcess :=
  mkMiningProcess (pid p) (name p) (priority p) (cpu_usage p) (gpu_usage p) (memory_usage p)
    (disk_io p) v (mark p) (network_interface p)
    (_prev_bytes_sent p) (_prev_bytes_recv p) (is_cloaked p) (gpu_initialized p).

Definition set_prev_bytes (sent recv : option Z) (p : MiningProcess) : MiningProcess :=
  mkMiningProcess (pid p) (name p) (priority p) (cpu_usage p) (gpu_usage p) (memory_usage p)
    (disk_io p) (network_io p) (mark p) (network_interface p)
    sent recv (is_cloaked p) (gpu_initialized p).

(** [MiningProcess(pid, name, priority, network_interface)]: the last
    argument is what [GPUManager().gpu_initialized] is at that moment. *)
Definition MiningProcess_init (pid : Z) (name : string) (priority : Z)
    (network_interface : string) (manager_initialized : bool) : MiningProcess :=
  mkMiningProcess pid name priority 0 0 0 0 0 (pid `mod` 65535) network_interface
    None None false manager_initialized.

(** One mebibyte, [1024 * 1024] and [1024 ** 2] in the source. *)
Definition MiB : Q := inject_Z (1024 * 1024).

(** [a / b] on floats. *)
Definition py_truediv (a b : Q) : outcome Q :=
  if Qeq_bool b 0 then Raise ZeroDivisionError else Ret (a / b)%Q.

(** [retry(ExceptionToCheck, tries, ...)]: up to [tries - 1] attempts that
    are retried when they raise the checked exception, then a last attempt
    whose exception, if any, goes to the caller.  The sleeps leave no mark
    on the state. *)
Fixpoint retry_loop {St A} (checked : exn -> bool) (warn : M St unit)
    (retries : nat) (f : M St A) : M St A :=
  match retries with
  | O => f
  | S n =>
      try_except f (fun e =>
        if checked e then warn ;; retry_loop checked warn n f else raise e)
  end.

Definition retry {St A} (checked : exn -> bool) (warn : M St unit)
    (tries : nat) (f : M St A) : M St A :=
  retry_loop checked warn (tries - 1) f.

Definition is_NVMLError (e : exn) : bool :=
  match e with
  | NVMLError => true
  | _ => false
  end.

(** [str.lower] on the ASCII letters (process names are byte strings
    here). *)
Definition lower_ascii (a : ascii) : ascii :=
  let n := N_of_ascii a in
  if ((65 <=? n) && (n <=? 90))%N then ascii_of_N (n + 32) else a.

Fixpoint lower (s : string) : string :=
  match s with
  | EmptyString => EmptyString
  | String a s' => String (lower_ascii a) (lower s')
  end.

(** [needle in hay] on strings. *)
Fixpoint contains (needle hay : string) : bool :=
  String.prefix needle hay ||
  match hay with
  | EmptyString => false
  | String _ hay' => contains needle hay'
  end.

Definition gpu_process_keywords : list string := ["llmsengen"; "gpu_miner"].

Definition is_gpu_process (p : MiningProcess) : bool :=
  existsb (fun keyword => contains keyword (lower (name p))) gpu_process_keywords.

Section Sampler.
Variable env : sample_env.

(** The loop of [GPUManager.get_total_gpu_memory] and of
    [get_used_gpu_memory]: it only reads the devices and adds up, or stops
    at the first reading that raises. *)
Fixpoint memory_sum (field : Z * Z -> Z) (devices : list nat) (acc : Q) : outcome Q :=
  match devices with
  | [] => Ret acc
  | i :: rest =>
      match gm_memory_info env (Z.of_nat i) with
      | Ret mem_info => memory_sum field rest (acc + inject_Z (field mem_info) / MiB)%Q
      | Raise e => Raise e
      end
  end.

Definition sum_memory (field : Z * Z -> Z) (err : string) : M ustate Q :=
  if negb (gm_gpu_initialized env) then ret 0%Q
  else
    try_except
      (lift (memory_sum field (seq 0 (gm_gpu_count env)) 0%Q))
      (fun e =>
         if is_NVMLError e then ulog_event ERROR err ;; ret 0%Q
         else raise e).

Definition get_total_gpu_memory : M ustate Q :=
  sum_memory fst "Error getting total GPU memory: {e}".

Definition get_used_gpu_memory : M ustate Q :=
  sum_memory snd "Error getting used GPU memory: {e}".

(** The body of [MiningProcess.get_gpu_usage], before decoration. *)
Definition get_gpu_usage_body : M ustate Q :=
  if negb (gm_gpu_initialized env) then ret 0%Q
  else
    try_except
      (total_gpu_memory <- get_total_gpu_memory ;;
       used_gpu_memory <- get_used_gpu_memory ;;
       if Qeq_bool total_gpu_memory 0 then ret 0%Q
       else
         ratio <- lift (py_truediv used_gpu_memory total_gpu_memory) ;;
         ret (ratio * 100)%Q)
      (fun e =>
         ulog_event ERROR "Error getting GPU usage for process {self.name} (PID: {self.pid}): {e}" ;;
         ret 0%Q).

(** [@retry(pynvml.NVMLError, tries=3, delay=2, backoff=2)] *)
Definition get_gpu_usage : M ustate Q :=
  retry is_NVMLError
    (ulog_event WARNING "Error '{e}' occurred in '{f.__name__}'. Retrying in {mdelay} seconds...")
    3 get_gpu_usage_body.

Definition zero_metrics (p : MiningProcess) : MiningProcess :=
  set_gpu_usage 0 (set_network_io 0 (set_disk_io 0 (set_memory_usage 0 (set_cpu_usage 0 p)))).

Definition update_resource_usage : M ustate unit :=
  try_except
    (match ps_process env with
     | Some e => raise e
     | None => ret tt
     end ;;
     cpu <- lift (ps_cpu_percent env) ;;
     update_self (set_cpu_usage cpu) ;;
     mem <- lift (ps_memory_percent env) ;;
     update_self (set_memory_usage mem) ;;
     io_counters <- lift (ps_io_counters env) ;;
     update_self (set_disk_io (inject_Z (fst io_counters + snd io_counters) / MiB)%Q) ;;
     net_io <- lift (ps_net_io_counters env) ;;
     s <- get ;;
     match net_io !! network_interface (self s) with
     | Some (current_bytes_sent, current_bytes_recv) =>
         match _prev_bytes_sent (self s), _prev_bytes_recv (self s) with
         | Some prev_sent, Some prev_recv =>
             let sent_diff := current_bytes_sent - prev_sent in
             let recv_diff := current_bytes_recv - prev_recv in
             update_self (set_network_io (inject_Z (sent_diff + recv_diff) / MiB)%Q)
         | _, _ => update_self (set_network_io 0)
         end ;;
         update_self (set_prev_bytes (Some current_bytes_sent) (Some current_bytes_recv))
     | None =>
         ulog_event WARNING "Network interface '{self.network_interface}' not found for process {self.name} (PID: {self.pid})." ;;
         update_self (set_network_io 0)
     end ;;
     s <- get ;;
     (if gpu_initialized (self s) && is_gpu_process (self s) then
        usage <- get_gpu_usage ;;
        update_self (set_gpu_usage usage)
      else update_self (set_gpu_usage 0)) ;;
     ulog_event DEBUG "Updated resource usage for process {self.name} (PID: {self.pid}): CPU {self.cpu_usage}%, GPU {self.gpu_usage}%, RAM {self.memory_usage}%, Disk I/O {self.disk_io} MB, Network I/O {self.network_io} MB.")
    (fun e =>
       match e with
       | NoSuchProcess => ulog_event ERROR "Process {self.name} (PID: {self.pid}) does not exist."
       | _ => ulog_event ERROR "Error updating resource usage for process {self.name} (PID: {self.pid}): {e}"
       end ;;
       update_self zero_metrics).

End Sampler.

(** [reset_network_io] *)
Definition reset_network_io : M ustate unit :=
  update_self (fun p => set_network_io 0 (set_prev_bytes None None p)).

End Utils.

(** * utils.py: the GPUManager singleton *)
Module GPUManager.

(** What the class does to the device SDK and to its logger. *)
Inductive action : Type :=
| NvmlInit
| NvmlDeviceGetCount
| NvmlShutdown
| Log (l : level) (msg : string).

(** What the SDK answers. *)
Record nvml_env : Type := {
  nvmlInit : option exn;
  nvmlDeviceGetCount : outcome Z;
  nvmlShutdown : option exn
}.

(** The attributes of the instance; [gpu_count] exists only once
    [initialize_nvml] has read it.  [gpu_initialized] is created by
    [__init__] before anything reads it; until then it stands as false. *)
Record fields : Type := {
  _initialized : bool;
  gpu_initialized : bool;
  gpu_count : option Z
}.

(** The class attribute [_instance] and what has been done so far. *)
Record class_state : Type := {
  _instance : option fields;
  actions : list action
}.

Definition act (a : action) : M class_state unit :=
  modify (fun s => {| _instance := _instance s; actions := actions s ++ [a] |}).

Definition call (a : action) (answer : option exn) : M class_state unit :=
  act a ;;
  match answer with
  | None => ret tt
  | Some e => raise e
  end.

(** [self.<attribute> = ...] on the one instance. *)
Definition update (f : fields -> fields) : M class_state unit :=
  modify (fun s => {| _instance := f <$> _instance s; actions := actions s |}).

Definition set__initialized (b : bool) (o : fields) : fields :=
  {| _initialized := b; gpu_initialized := gpu_initialized o; gpu_count := gpu_count o |}.

Definition set_gpu_initialized (b : bool) (o : fields) : fields :=
  {| _initialized := _initialized o; gpu_initialized := b; gpu_count := gpu_count o |}.

Definition set_gpu_count (n : Z) (o : fields) : fields :=
  {| _initialized := _initialized o; gpu_initialized := gpu_initialized o;
     gpu_count := Some n |}.

(** [__new__]: the instance is created once, with [_initialized = False]. *)
Definition GPUManager_new : M class_state unit :=
  s <- get ;;
  match _instance s with
  | Some _ => ret tt
  | None =>
      modify (fun s =>
        {| _instance := Some {| _initialized := false; gpu_initialized := false;
                                gpu_count := None |};
           actions := actions s |})
  end.

Section Host.
Variable env : nvml_env.

Definition initialize_nvml : M class_state unit :=
  try_except
    (call NvmlInit (nvmlInit env) ;;
     act NvmlDeviceGetCount ;;
     count <- lift (nvmlDeviceGetCount env) ;;
     update (set_gpu_count count) ;;
     update (set_gpu_initialized true) ;;
     act (Log INFO "NVML initialized successfully. Detected {0} GPUs."))
    (fun e =>
       match e with
       | NVMLError =>
           update (set_gpu_initialized false) ;;
           act (Log WARNING "Cannot initialize NVML: {e}. GPU management functionality will be disabled.")
       | _ => raise e
       end).

Definition GPUManager_init : M class_state unit :=
  s <- get ;;
  match _instance s with
  | None => raise (OtherError "no instance")
  | Some self =>
      if _initialized self then ret tt
      else
        update (set__initialized true) ;;
        update (set_gpu_initialized false) ;;
        initialize_nvml
  end.

(** [GPUManager()]: [__new__], then [__init__] on the instance. *)
Definition GPUManager : M class_state unit :=
  GPUManager_new ;; GPUManager_init.

Definition shutdown_nvml : M class_state unit :=
  s <- get ;;
  match _instance s with
  | None => raise (OtherError "no instance")
  | Some self =>
      if gpu_initialized self then
        try_except
          (call NvmlShutdown (nvmlShutdown env) ;;
           act (Log INFO "NVML has been shut down successfully."))
          (fun e =>
             match e with
             | NVMLError => act (Log ERROR "Error shutting down NVML: {e}")
             | _ => raise e
             end)
      else ret tt
  end.

End Host.

End GPUManager.

(** * resource_manager.py: the singleton supervisor *)
Module Supervisor.

(** Attribute values of the supervisor.  Objects the constructor creates
    (events, locks, queues, threads, the [SharedResourceManager]) are
    known by their class and a fresh identity. *)
Inductive attr : Type :=
| ABool (b : bool)
| AConfig (c : ResourceManager.config)
| ALogger (l : Z)
| APath (p : string)
| AEmptyList
| AObject (class : string) (id : nat).

(** [bool(v)] for an attribute value. *)
Definition attr_truthy (v : attr) : bool :=
  match v with
  | ABool b => b
  | AEmptyList => false
  | _ => true
  end.

(** The class attribute [_instance], the [__dict__] of every allocated
    instance, and the next free object identity. *)
Record class_state : Type := {
  _instance : option nat;
  heap : gmap nat (gmap string attr);
  next_id : nat
}.

(** [BaseManager.__init__] and the two Azure initialisers are inherited or
    defined outside the source files at hand.  Each is taken as it comes:
    a computation that is given [self] and may do anything to the
    instances, to the class attribute and to the allocator. *)
Record inherited : Type := {
  BaseManager_init : nat -> ResourceManager.config -> Z -> M class_state unit;
  initialize_azure_clients : nat -> M class_state unit;
  discover_azure_resources : nat -> M class_state unit
}.

(** Run a computation on the attributes of the object at [addr]. *)
Definition on_self {A} (addr : nat) (m : M (gmap string attr) A) : M class_state A :=
  fun s =>
    let '(r, d) := m (default ∅ (heap s !! addr)) in
    (r, {| _instance := _instance s; heap := <[addr := d]> (heap s); next_id := next_id s |}).

Definition setattr (addr : nat) (key : string) (v : attr) : M class_state unit :=
  on_self addr (modify (insert key v)).

Definition getattr (addr : nat) (key : string) : M class_state (option attr) :=
  s <- get ;; ret (heap s !! addr ≫= lookup key).

(** Calling a class: a fresh object of that class. *)
Definition new_object (class : string) : M class_state attr :=
  s <- get ;;
  modify (fun s => {| _instance := _instance s; heap := heap s; next_id := S (next_id s) |}) ;;
  ret (AObject class (next_id s)).

Definition ResourceManager_new : M class_state nat :=
  s <- get ;;
  match _instance s with
  | Some addr => ret addr
  | None =>
      let addr := next_id s in
      modify (fun s => {| _instance := Some addr;
                          heap := <[addr := ∅]> (heap s);
                          next_id := S (next_id s) |}) ;;
      ret addr
  end.

Definition initialize_threads (addr : nat) : M class_state unit :=
  t <- new_object "Thread(MonitorThread)" ;; setattr addr "monitor_thread" t ;;
  t <- new_object "Thread(OptimizationThread)" ;; setattr addr "optimization_thread" t ;;
  t <- new_object "Thread(CloakingThread)" ;; setattr addr "cloaking_thread" t ;;
  t <- new_object "Thread(ResourceAdjustmentThread)" ;; setattr addr "resource_adjustment_thread" t.

Section Init.
Variable base : inherited.

Definition ResourceManager_init (addr : nat) (config : ResourceManager.config)
    (model_path : string) (logger : Z) : M class_state unit :=
  BaseManager_init base addr config logger ;;
  initialized <- getattr addr "_initialized" ;;
  if from_option attr_truthy false initialized then ret tt
  else
      setattr addr "_initialized" (ABool true) ;;
      setattr addr "config" (AConfig config) ;;
      setattr addr "model_path" (APath model_path) ;;
      setattr addr "logger" (ALogger logger) ;;
      o <- new_object "Event" ;; setattr addr "stop_event" o ;;
      o <- new_object "RWLockFair" ;; setattr addr "resource_lock" o ;;
      o <- new_object "PriorityQueue" ;; setattr addr "resource_adjustment_queue" o ;;
      o <- new_object "Queue" ;; setattr addr "cloaking_request_queue" o ;;
      setattr addr "mining_processes" AEmptyList ;;
      o <- new_object "RWLockFair" ;; setattr addr "mining_processes_lock" o ;;
      initialize_azure_clients base addr ;;
      discover_azure_resources base addr ;;
      initialize_threads addr ;;
      o <- new_object "SharedResourceManager" ;; setattr addr "shared_resource_manager" o.

(** [hasattr(self, '_initialized') and self._initialized] is the test
    above.  [ResourceManager(config, model_path, logger)] is [__new__], then
    [__init__] on what it returned. *)
Definition ResourceManager (config : ResourceManager.config) (model_path : string)
    (logger : Z) : M class_state nat :=
  addr <- ResourceManager_new ;;
  ResourceManager_init addr config model_path logger ;;
  ret addr.

End Init.

Definition fresh : class_state := {| _instance := None; heap := ∅; next_id := 0 |}.

(** Modelled from the spec: [BaseManager.__init__],
    [initialize_azure_clients] and [discover_azure_resources], none of
    which is among the source files.  The spec says of them only that
    re-entrant initialisation is a no-op; here they change nothing. *)
Definition quiet_base : inherited := {|
  BaseManager_init := fun _ _ _ => ret tt;
  initialize_azure_clients := fun _ => ret tt;
  discover_azure_resources := fun _ => ret tt
|}.

End Supervisor.

(** * Properties *)

Import ResourceManager.
Import Utils.
Import Supervisor.

(** ** Vocabulary of the statements and sample inputs *)

(** [effect m w a evs]: from [w], [m] returns [a], leaves the saved limits
    alone and appends [evs] to the trace. *)
Definition effect {A} (m : M world A) (w : world) (a : A) (evs : list event) : Prop :=
  m w = (Ret a, {| original_resource_limits := original_resource_limits w;
                   trace := trace w ++ evs |}).

Definition after (w : world) (evs : list event) : world :=
  {| original_resource_limits := original_resource_limits w; trace := trace w ++ evs |}.

Definition msg_threads_invalid : string :=
  "Requested CPU threads ({desired_threads}) invalid. Skipping.".

Definition msg_threads_adjusted : string :=
  "Adjusted CPU threads to {cpu_threads} for process {process_name} (PID: {pid}).".

(** The external commands recorded in a list of events. *)
Definition tasksets (evs : list event) : list (list Z * Z) :=
  omap (fun e => match e with ETaskset cores p => Some (cores, p) | _ => None end) evs.

Definition host4 : os_env := {|
  os_cpu_count := PInt 4;
  os_taskset := fun _ _ => None;
  os_ionice := fun _ _ => None;
  os_nvmlInit := None;
  os_nvmlDeviceGetHandleByIndex := fun i => Ret i;
  os_nvmlDeviceSetPowerManagementLimit := fun _ _ => None;
  os_nvmlDeviceGetPowerManagementLimit := fun _ => Ret 250000;
  os_nvmlShutdown := None;
  os_set_gpu_usage := fun _ _ => None;
  os_drop_caches := None
|}.

Definition world0 : world := {| original_resource_limits := ∅; trace := [] |}.

Definition is_sdk_call (e : event) : bool :=
  match e with
  | ENvmlInit | ENvmlDeviceGetHandleByIndex _ | ENvmlDeviceSetPowerManagementLimit _ _
  | ENvmlDeviceGetPowerManagementLimit _ | ENvmlShutdown => true
  | _ => false
  end.

Definition sdk_calls (evs : list event) : list event := List.filter is_sdk_call evs.

(** The device-SDK sequence for a cap of [W] watts on the device whose
    handle is [h]. *)
Definition power_cap_sequence (h W : Z) : list event :=
  [ENvmlInit; ENvmlDeviceGetHandleByIndex 0;
   ENvmlDeviceSetPowerManagementLimit h (PInt (W * 1000)); ENvmlShutdown].

Definition setter_calls (evs : list event) : list (Z * list pynum) :=
  omap (fun e => match e with ESetGpuUsage p v => Some (p, v) | _ => None end) evs.

Definition default_config : config := {| optimization_parameters := Some ∅ |}.

Definition gpu_miner : MiningProcess :=
  mkMiningProcess 12345 "gpu_miner" 3 0 0 0 0 0 12345 "eth0" None None false true.

Definition calls (evs : list event) : list (adapter * Z * pyval) :=
  omap (fun e => match e with ECall a p v => Some (a, p, v) | _ => None end) evs.

(** [Runs m a cs]: from every world, [m] returns [a], keeps the saved
    limits, and enters the adapters listed in [cs], in that order. *)
Definition Runs {A} (m : M world A) (a : A) (cs : list (adapter * Z * pyval)) : Prop :=
  forall w, exists evs, effect m w a evs /\ calls evs = cs.

(** The six knobs [restore_resources] looks at, in the order of the code,
    each with the adapter it hands the saved value to. *)
Definition restore_order : list (string * adapter) :=
  [("cpu_freq", CpuFrequency); ("cpu_threads", CpuThreads);
   ("ram_allocation_mb", RamAllocation); ("gpu_power_limit", GpuPowerLimit);
   ("ionice_class", DiskIoPriority); ("network_bandwidth_limit_mbps", NetworkBandwidth)].

Definition restored_knob (p : Z) (saved : gmap string pyval) (ka : string * adapter)
    : option (adapter * Z * pyval) :=
  match saved !! ka.1 with
  | Some v => if truthy v then Some (ka.2, p, v) else None
  | None => None
  end.

Definition restored (p : Z) (saved : gmap string pyval) : list (adapter * Z * pyval) :=
  omap (restored_knob p saved) restore_order.

Definition restore_process : MiningProcess :=
  mkMiningProcess 2121 "restore_process" 1 0 0 0 0 0 2121 "eth0" None None true false.

Definition host_ionice_fails : os_env := {|
  os_cpu_count := PInt 4;
  os_taskset := fun _ _ => None;
  os_ionice := fun _ _ => Some CalledProcessError;
  os_nvmlInit := None;
  os_nvmlDeviceGetHandleByIndex := fun i => Ret i;
  os_nvmlDeviceSetPowerManagementLimit := fun _ _ => None;
  os_nvmlDeviceGetPowerManagementLimit := fun _ => Ret 250000;
  os_nvmlShutdown := None;
  os_set_gpu_usage := fun _ _ => None;
  os_drop_caches := None
|}.

Definition saved_ionice : world :=
  {| original_resource_limits := {[ 2121 := {[ "ionice_class" := PInt 2 ]} ]};
     trace := [] |}.

Definition saved_zero : world :=
  {| original_resource_limits :=
       {[ 2121 := {[ "ionice_class" := PInt 0; "cpu_freq" := PNone ]} ]};
     trace := [] |}.

(** Modelled from the spec: [execute_adjustments] is called by
    [apply_cloak_strategy] but is not in the source files.  Section 4.5,
    step 4: "Dispatch each knob to the appropriate adapter"; section 3:
    "Unknown keys are logged and ignored"; section 7: the executor catches
    and logs what the adapters raise. *)
Definition execute_adjustments_spec (os : os_env) (adjustments : list (string * pyval))
    (process : MiningProcess) : M world unit :=
  try_except
    (for_each adjustments (fun '(key, value) =>
       if String.eqb key "cpu_freq" then
         adjust_cpu_frequency os (pid process) value (name process)
       else if String.eqb key "cpu_threads" then
         adjust_cpu_threads os (pid process) value (name process)
       else if String.eqb key "ram_allocation_mb" then
         adjust_ram_allocation os (pid process) value (name process)
       else if String.eqb key "gpu_power_limit" then
         adjust_gpu_power_limit os (pid process) value (name process) ;; ret tt
       else if String.eqb key "ionice_class" then
         adjust_disk_io_priority os (pid process) value (name process)
       else if String.eqb key "network_bandwidth_limit_mbps" then
         adjust_network_bandwidth process value
       else if String.eqb key "drop_caches" then
         drop_caches os
       else log WARNING "Unknown adjustment: {key}"))
    (fun e => log ERROR "Error executing cloaking adjustments for process {process.name} (PID: {process.pid}): {e}").

(** Collaborators for a host whose CPU runs at [freq] MHz: the factory
    knows one strategy, which asks for 2500 MHz; the other readers answer
    as on a host without GPU accounting or traffic shaping. *)
Definition collaborators_at (os : os_env) (freq : Z) : collaborators unit := {|
  is_gpu_initialized := ret false;
  create_strategy := fun _ _ _ => ret (Some tt);
  strategy_apply := fun _ _ => ret [("cpu_freq", PInt 2500)];
  get_current_cpu_frequency := fun _ => ret (PInt freq);
  get_current_gpu_power_limit := fun _ => ret PNone;
  get_current_network_bandwidth_limit := fun _ => ret PNone;
  get_current_ionice_class := fun _ => ret (PInt 2);
  execute_adjustments := execute_adjustments_spec os
|}.

Definition cpu_miner : MiningProcess :=
  mkMiningProcess 1001 "cpu_miner" 2 0 0 0 0 0 1001 "eth0" None None false false.

Definition saved_value (w : world) (p : Z) (key : string) : option pyval :=
  original_resource_limits w !! p ≫= lookup key.

Definition logged (s : ustate) (l : level) (msg : string) : ustate :=
  {| self := self s; ulog := ulog s ++ [ELog l msg] |}.

Definition msg_gpu_usage_error : string :=
  "Error getting GPU usage for process {self.name} (PID: {self.pid}): {e}".

(** The sample goes through: the process exists, psutil answers every
    query, and the interface is among the per-NIC counters, with [sent]
    and [recv] bytes. *)
Definition reads (env : sample_env) (iface : string) (sent recv : Z) : Prop :=
  ps_process env = None /\
  (exists cpu, ps_cpu_percent env = Ret cpu) /\
  (exists mem, ps_memory_percent env = Ret mem) /\
  (exists io, ps_io_counters env = Ret io) /\
  (exists net_io, ps_net_io_counters env = Ret net_io /\ net_io !! iface = Some (sent, recv)).

(** The process exists and psutil answers every query of the sample. *)
Definition sampled (env : sample_env) : Prop :=
  ps_process env = None /\
  (exists cpu, ps_cpu_percent env = Ret cpu) /\
  (exists mem, ps_memory_percent env = Ret mem) /\
  (exists io, ps_io_counters env = Ret io) /\
  (exists net_io, ps_net_io_counters env = Ret net_io).

(** One device with 8 GiB of memory, a quarter of it in use; the
    interface eth0 has sent [sent] and received [recv] bytes. *)
Definition sample_at (sent recv : Z) : sample_env := {|
  ps_process := None;
  ps_cpu_percent := Ret 50%Q;
  ps_memory_percent := Ret 10%Q;
  ps_io_counters := Ret (1048576, 1048576);
  ps_net_io_counters := Ret {[ "eth0" := (sent, recv) ]};
  gm_gpu_initialized := true;
  gm_gpu_count := 1;
  gm_memory_info := fun _ => Ret (8589934592, 2147483648)
|}.

Definition registered (p : MiningProcess) : ustate := {| self := p; ulog := [] |}.

Definition config_a : ResourceManager.config := {| optimization_parameters := None |}.
Definition config_b : ResourceManager.config := default_config.

(** The state after the first construction, from scratch. *)
Definition constructed_once : class_state :=
  snd (Supervisor.ResourceManager quiet_base config_a "model.pt" 7 fresh).

Definition msg_limits_not_found : string :=
  "Original resource limits not found for process {process_name} (PID: {pid}).".

(** The knobs whose current value [apply_cloak_strategy] reads and
    stores. *)
Definition recorded_knobs : list string :=
  ["cpu_freq"; "gpu_power_limit"; "network_bandwidth_limit_mbps"; "ionice_class"].

(** The four readers of the collaborators do nothing but answer: the
    reading of each recorded knob is [reading knob], for every pid. *)
Definition pure_readers {strategy} (c : collaborators strategy) (reading : string -> pyval)
    : Prop :=
  (forall p, get_current_cpu_frequency c p = ret (reading "cpu_freq")) /\
  (forall p, get_current_gpu_power_limit c p = ret (reading "gpu_power_limit")) /\
  (forall p, get_current_network_bandwidth_limit c p =
             ret (reading "network_bandwidth_limit_mbps")) /\
  (forall p, get_current_ionice_class c p = ret (reading "ionice_class")).

(** What the recording loop makes of an entry. *)
Definition record_all (reading : string -> pyval) (adjustments : list (string * pyval))
    (entry : gmap string pyval) : gmap string pyval :=
  foldl (fun d kv => if bool_decide (kv.1 ∈ recorded_knobs)
                     then <[kv.1 := reading kv.1]> d else d)
        entry adjustments.

(** Events that reach outside the process: commands and SDK calls. *)
Definition is_external (e : event) : bool :=
  match e with
  | ELog _ _ | ECall _ _ _ => false
  | _ => true
  end.

Definition externals (evs : list event) : list event := List.filter is_external evs.

(** Further sample inputs and measures. *)

(** Readings of a host at 3000 MHz with ionice class 2. *)
Definition reading_3000 (knob : string) : pyval :=
  if String.eqb knob "cpu_freq" then PInt 3000
  else if String.eqb knob "ionice_class" then PInt 2 else PNone.

(** The exception a run ended with, if any. *)
Definition raised {A} (r : outcome A) : option exn :=
  match r with
  | Ret _ => None
  | Raise e => Some e
  end.

(** Collaborators whose factory creates no strategy. *)
Definition no_strategy : collaborators unit := {|
  is_gpu_initialized := ret false;
  create_strategy := fun _ _ _ => ret None;
  strategy_apply := fun _ _ => ret [];
  get_current_cpu_frequency := fun _ => ret PNone;
  get_current_gpu_power_limit := fun _ => ret PNone;
  get_current_network_bandwidth_limit := fun _ => ret PNone;
  get_current_ionice_class := fun _ => ret PNone;
  execute_adjustments := fun _ _ => ret tt
|}.

(** The frequency [throttle_cpu_based_on_load] picks for a load. *)
Definition throttle_frequency (load : Q) : Z :=
  if Qlt_bool (inject_Z 80) load then 2000
  else if Qlt_bool (inject_Z 50) load then 2500 else 3000.

(** A host whose SDK refuses every new power limit. *)
Definition host_refuses_power_limit : os_env := {|
  os_cpu_count := PInt 4;
  os_taskset := fun _ _ => None;
  os_ionice := fun _ _ => None;
  os_nvmlInit := None;
  os_nvmlDeviceGetHandleByIndex := fun i => Ret i;
  os_nvmlDeviceSetPowerManagementLimit := fun _ _ => Some NVMLError;
  os_nvmlDeviceGetPowerManagementLimit := fun _ => Ret 250000;
  os_nvmlShutdown := None;
  os_set_gpu_usage := fun _ _ => None;
  os_drop_caches := None
|}.

(** One attempt that is given up: the state after the attempt and the
    warning. *)
Definition attempt_and_warn {St A} (warn : M St unit) (f : M St A) (s : St) : St :=
  snd (warn (snd (f s))).

(** An attempt that counts itself and fails with [NVMLError]. *)
Definition failing_attempt : M nat unit := fun n => (Raise NVMLError, S n).

(** An attempt that counts itself and fails with [TypeError]. *)
Definition type_error_attempt : M nat unit := fun n => (Raise TypeError, S n).

(** Two devices; the second one answers with [NVMLError]. *)
Definition second_device_fails : sample_env := {|
  ps_process := None;
  ps_cpu_percent := Ret 50%Q;
  ps_memory_percent := Ret 10%Q;
  ps_io_counters := Ret (0, 0);
  ps_net_io_counters := Ret ∅;
  gm_gpu_initialized := true;
  gm_gpu_count := 2;
  gm_memory_info := fun i => if i =? 0 then Ret (8589934592, 2147483648) else Raise NVMLError
|}.

(** The fields a sample must not touch. *)
Definition identity (p : MiningProcess) : Z * string * Z * Z * string * bool * bool :=
  (pid p, name p, priority p, mark p, network_interface p, is_cloaked p, gpu_initialized p).

(** The baseline of the network counters. *)
Definition baseline (p : MiningProcess) : option Z * option Z :=
  (_prev_bytes_sent p, _prev_bytes_recv p).

(** A sample that does not get to the counters of the interface: a psutil
    call raises, or the interface is not among the per-NIC counters. *)
Definition misses (env : sample_env) (iface : string) : Prop :=
  (exists e, ps_process env = Some e) \/
  (exists e, ps_cpu_percent env = Raise e) \/
  (exists e, ps_memory_percent env = Raise e) \/
  (exists e, ps_io_counters env = Raise e) \/
  (exists e, ps_net_io_counters env = Raise e) \/
  (exists net_io, ps_net_io_counters env = Ret net_io /\ net_io !! iface = None).

(** The process has vanished. *)
Definition sample_gone : sample_env := {|
  ps_process := Some NoSuchProcess;
  ps_cpu_percent := Raise NoSuchProcess;
  ps_memory_percent := Raise NoSuchProcess;
  ps_io_counters := Raise NoSuchProcess;
  ps_net_io_counters := Ret ∅;
  gm_gpu_initialized := false;
  gm_gpu_count := 0;
  gm_memory_info := fun _ => Raise NVMLError
|}.

(** psutil answers, but lists no interface. *)
Definition sample_without_interface : sample_env := {|
  ps_process := None;
  ps_cpu_percent := Ret 50%Q;
  ps_memory_percent := Ret 10%Q;
  ps_io_counters := Ret (0, 0);
  ps_net_io_counters := Ret ∅;
  gm_gpu_initialized := false;
  gm_gpu_count := 0;
  gm_memory_info := fun _ => Raise NVMLError
|}.

(** The SDK calls among the actions of the GPU manager. *)
Definition is_sdk_action (a : GPUManager.action) : bool :=
  match a with
  | GPUManager.Log _ _ => false
  | _ => true
  end.

Definition sdk_actions (l : list GPUManager.action) : list GPUManager.action :=
  List.filter is_sdk_action l.

(** The class before the first [GPUManager()]. *)
Definition no_manager : GPUManager.class_state :=
  {| GPUManager._instance := None; GPUManager.actions := [] |}.

(** NVML answers both calls of [initialize_nvml]. *)
Definition nvml_available (env : GPUManager.nvml_env) : bool :=
  match GPUManager.nvmlInit env, GPUManager.nvmlDeviceGetCount env with
  | None, Ret _ => true
  | _, _ => false
  end.

(** An SDK that answers every call; two devices. *)
Definition nvml_ok : GPUManager.nvml_env := {|
  GPUManager.nvmlInit := None;
  GPUManager.nvmlDeviceGetCount := Ret 2;
  GPUManager.nvmlShutdown := None
|}.

(** The claim's words, for comparison with the code: the name matches one
    of the GPU-worker substrings the configuration lists. *)
Definition matches_configured (configured : list string) (process_name : string) : bool :=
  existsb (fun keyword => contains keyword (lower process_name)) configured.

(** What a sample gets to know of the counters of the interface: nothing
    when a psutil call raises before they are read, or when the interface
    is not among the per-NIC counters. *)
Definition counters (env : sample_env) (iface : string) : option (Z * Z) :=
  match ps_process env, ps_cpu_percent env, ps_memory_percent env,
        ps_io_counters env, ps_net_io_counters env with
  | None, Ret _, Ret _, Ret _, Ret net_io => net_io !! iface
  | _, _, _, _, _ => None
  end.

(** One sample after the other. *)
Fixpoint samples (envs : list sample_env) (s : ustate) : ustate :=
  match envs with
  | [] => s
  | env :: envs => samples envs (snd (update_resource_usage env s))
  end.

(** The counters read by the most recent of the samples that got to
    read them. *)
Definition last_counters (iface : string) (envs : list sample_env) : option (Z * Z) :=
  foldl (fun seen env => match counters env iface with
                         | Some c => Some c
                         | None => seen
                         end) None envs.

(** The baseline that remembers these counters. *)
Definition stored (seen : option (Z * Z)) : option Z * option Z :=
  match seen with
  | Some (sent, recv) => (Some sent, Some recv)
  | None => (None, None)
  end.

(** psutil refuses the disk counters of the process; the interface eth0
    has sent [sent] and received [recv] bytes. *)
Definition sample_denied (sent recv : Z) : sample_env := {|
  ps_process := None;
  ps_cpu_percent := Ret 50%Q;
  ps_memory_percent := Ret 10%Q;
  ps_io_counters := Raise (OtherError "AccessDenied");
  ps_net_io_counters := Ret {[ "eth0" := (sent, recv) ]};
  gm_gpu_initialized := true;
  gm_gpu_count := 1;
  gm_memory_info := fun _ => Ret (8589934592, 2147483648)
|}.

(** NaN, the one number that is not ordered. *)
Definition is_nan (y : pynum) : bool :=
  match y with
  | NFloat S754_nan => true
  | _ => false
  end.

(** [0 <= y <= 100]. *)
Definition in_percent_range (y : pynum) : bool :=
  num_le (NInt 0) y && num_le y (NInt 100).

(** ** Arithmetic on embedded integers *)

Lemma Qle_bool_inject_Z (a b : Z) : Qle_bool (inject_Z a) (inject_Z b) = (a <=? b).
Proof. unfold Qle_bool; simpl. now rewrite !Z.mul_1_r. Qed.

Lemma Qlt_bool_inject_Z (a b : Z) : Qlt_bool (inject_Z a) (inject_Z b) = (a <? b).
Proof. unfold Qlt_bool. rewrite Qle_bool_inject_Z. now rewrite Z.ltb_antisym. Qed.

Lemma Qlt_bool_iff (x y : Q) : Qlt_bool x y = true <-> (x < y)%Q.
Proof.
  unfold Qlt_bool. rewrite negb_true_iff, <- not_true_iff_false, Qle_bool_iff.
  split; [apply Qnot_le_lt | apply Qlt_not_le].
Qed.

Lemma Qlt_bool_false_iff (x y : Q) : Qlt_bool x y = false <-> (y <= x)%Q.
Proof. unfold Qlt_bool. now rewrite negb_false_iff, Qle_bool_iff. Qed.

(** ** Running the adapters *)

Lemma after_after w e1 e2 : after (after w e1) e2 = after w (e1 ++ e2).
Proof. unfold after; simpl. now rewrite app_assoc. Qed.

Lemma after_nil w : after w [] = w.
Proof. destruct w; unfold after; simpl. now rewrite app_nil_r. Qed.

Lemma effect_ret {A} (a : A) w : effect (ret a) w a [].
Proof. unfold effect, ret. fold (after w []). now rewrite after_nil. Qed.

Lemma effect_bind {A B} (m : M world A) (k : A -> M world B) w a b e1 e2 :
  effect m w a e1 -> effect (k a) (after w e1) b e2 -> effect (bind m k) w b (e1 ++ e2).
Proof.
  unfold effect, bind, after. intros H1 H2. rewrite H1, H2. simpl.
  now rewrite app_assoc.
Qed.

Lemma effect_emit e w : effect (emit e) w tt [e].
Proof. reflexivity. Qed.

Lemma effect_log l msg w : effect (log l msg) w tt [ELog l msg].
Proof. reflexivity. Qed.

Lemma effect_try {A} (m : M world A) h w a evs :
  effect m w a evs -> effect (try_except m h) w a evs.
Proof. unfold effect, try_except. now intros ->. Qed.

Lemma assign_cpu_threads os (pid n c : Z) process_name w :
  os_cpu_count os = PInt c ->
  effect (assign_process_resources os pid {[ "cpu_threads" := PInt n ]} process_name) w tt
    (if bool_decide (n <= 0 \/ c < n) then [ELog WARNING msg_threads_invalid]
     else
       let cores := Z.of_nat <$> seq 0 (Z.to_nat n) in
       [ETaskset cores pid;
        match os_taskset os cores pid with
        | None => ELog INFO "Applied {desired_threads} CPU threads limit for process {process_name} (PID: {pid})."
        | Some _ => ELog ERROR "Error adjusting CPU threads using taskset for {process_name} (PID: {pid}): {e}"
        end]).
Proof.
  intros Hc. unfold assign_process_resources.
  rewrite lookup_singleton_eq, !lookup_singleton_ne by done.
  change (bool_decide (is_Some (@None pyval))) with false.
  rewrite Hc. unfold py_gt, py_le; simpl as_Q. cbv beta iota.
  rewrite Qlt_bool_inject_Z, Qle_bool_inject_Z.
  unfold effect, try_except, bind, lift, when, log, emit, modify, run, ret, raise.
  case_bool_decide as Hn.
  - destruct (Z.ltb_spec c n); simpl; [done|].
    destruct (Z.leb_spec n 0); simpl; [done | lia].
  - destruct (Z.ltb_spec c n); [lia|]. destruct (Z.leb_spec n 0); [lia|]. simpl.
    destruct (os_taskset os _ pid); simpl; now rewrite <- !app_assoc.
Qed.

(** ** C3: the CPU-thread adjustment *)

(** C3.  [adjust_cpu_threads] with an integer thread count [n], on a host
    with [c] logical cores, returns normally and leaves the saved original
    limits unchanged.  When [n <= 0] or [n > c] it issues no taskset
    command and logs the warning that the request is invalid.  Otherwise
    it issues exactly one taskset command, for the cores [0 .. n-1] and the
    given pid. *)
Theorem adjust_cpu_threads_guard os (pid n c : Z) process_name w :
  os_cpu_count os = PInt c ->
  exists evs,
    adjust_cpu_threads os pid (PInt n) process_name w =
      (Ret tt, {| original_resource_limits := original_resource_limits w;
                  trace := trace w ++ evs |}) /\
    if bool_decide (n <= 0 \/ c < n) then
      tasksets evs = [] /\ ELog WARNING msg_threads_invalid ∈ evs
    else
      tasksets evs = [(Z.of_nat <$> seq 0 (Z.to_nat n), pid)] /\
      (forall k, k ∈ Z.of_nat <$> seq 0 (Z.to_nat n) <-> 0 <= k < n).
Proof.
  intros Hc.
  pose proof (assign_cpu_threads os pid n c process_name
                (after w [ECall CpuThreads pid (PInt n)]) Hc) as Ha.
  eexists. split.
  - unfold adjust_cpu_threads.
    eapply effect_bind; [apply effect_emit|].
    apply effect_try. eapply effect_bind; [exact Ha|]. apply effect_log.
  - case_bool_decide; simpl.
    + split; [reflexivity | set_solver].
    + split; [now destruct (os_taskset os _ pid)|].
      intros k. rewrite list_elem_of_fmap. setoid_rewrite elem_of_seq. split.
      * intros (i & -> & Hi). lia.
      * intros Hk. exists (Z.to_nat k). lia.
Qed.

Lemma adjust_cpu_threads_guard_witness :
  exists evs,
    adjust_cpu_threads host4 1001 (PInt 2) "cpu_miner" world0 =
      (Ret tt, {| original_resource_limits := ∅; trace := [] ++ evs |}) /\
    tasksets evs = [([0; 1], 1001)] /\
    (forall k, k ∈ [0; 1] <-> 0 <= k < 2).
Proof.
  exact (adjust_cpu_threads_guard host4 1001 2 4 "cpu_miner" world0 eq_refl).
Defined.

(** ** C6: the GPU power-cap adapter *)

Ltac run_monad :=
  unfold effect, after, try_except, bind, lift, when, log, emit, modify, run, run_val,
    ret, raise, get, set_limits; simpl.

(** C6, as the code has it.  [adjust_gpu_power_limit] with a target of [W]
    watts calls the device SDK in the order init, get handle 0, set power
    management limit to [W * 1000] mW on the handle it was given,
    shutdown, and stops at the first call that fails: on every host the
    calls it makes are an initial part of that sequence, and the whole of
    it when neither init, the lookup nor the set fails.  It always returns
    [None] and never touches the saved limits; it does not read the prior
    cap. *)
Theorem adjust_gpu_power_limit_sequence os (pid W : Z) process_name w :
  exists evs,
    adjust_gpu_power_limit os pid (PInt W) process_name w =
      (Ret PNone, {| original_resource_limits := original_resource_limits w;
                     trace := trace w ++ evs |}) /\
    sdk_calls evs =
      match os_nvmlInit os with
      | Some _ => [ENvmlInit]
      | None =>
          match os_nvmlDeviceGetHandleByIndex os 0 with
          | Raise _ => [ENvmlInit; ENvmlDeviceGetHandleByIndex 0]
          | Ret h =>
              match os_nvmlDeviceSetPowerManagementLimit os h (PInt (W * 1000)) with
              | Some _ =>
                  [ENvmlInit; ENvmlDeviceGetHandleByIndex 0;
                   ENvmlDeviceSetPowerManagementLimit h (PInt (W * 1000))]
              | None => power_cap_sequence h W
              end
          end
      end /\
    (exists h, sdk_calls evs `prefix_of` power_cap_sequence h W) /\
    (forall h, os_nvmlDeviceGetHandleByIndex os 0 = Ret h ->
       sdk_calls evs `prefix_of` power_cap_sequence h W /\
       (os_nvmlInit os = None ->
        os_nvmlDeviceSetPowerManagementLimit os h (PInt (W * 1000)) = None ->
        sdk_calls evs = power_cap_sequence h W)) /\
    (forall h, ENvmlDeviceGetPowerManagementLimit h ∉ evs).
Proof.
  unfold adjust_gpu_power_limit, power_cap_sequence. run_monad.
  destruct (os_nvmlInit os) as [e1|]; simpl.
  { eexists; split; [now rewrite <- !app_assoc|]. simpl.
    split; [reflexivity|]. split; [exists 0; now eexists|]. split.
    - intros h _. split; [|done]. now eexists.
    - intros h. set_solver. }
  destruct (os_nvmlDeviceGetHandleByIndex os 0) as [h0|e2]; simpl.
  2:{ eexists; split; [now rewrite <- !app_assoc|]. simpl.
      split; [reflexivity|]. split; [exists 0; now eexists|]. split; [done|].
      intros h. set_solver. }
  destruct (os_nvmlDeviceSetPowerManagementLimit os h0 (PInt (W * 1000))) as [e3|] eqn:Hset; simpl.
  { eexists; split; [now rewrite <- !app_assoc|]. simpl.
    split; [reflexivity|]. split; [exists h0; now eexists|]. split.
    - intros h [= <-]. split; [now eexists | congruence].
    - intros h. set_solver. }
  destruct (os_nvmlShutdown os) as [e4|]; simpl.
  - eexists; split; [now rewrite <- !app_assoc|]. simpl.
    split; [reflexivity|]. split; [exists h0; now exists []|]. split.
    + intros h [= <-]. split; [now exists [] | done].
    + intros h. set_solver.
  - eexists; split; [now rewrite <- !app_assoc|]. simpl.
    split; [reflexivity|]. split; [exists h0; now exists []|]. split.
    + intros h [= <-]. split; [now exists [] | done].
    + intros h. set_solver.
Qed.

Lemma adjust_gpu_power_limit_sequence_witness :
  exists evs,
    adjust_gpu_power_limit host4 1515 (PInt 200) "gpu_power_process" world0 =
      (Ret PNone, {| original_resource_limits := ∅; trace := [] ++ evs |}) /\
    sdk_calls evs = power_cap_sequence 0 200.
Proof.
  destruct (adjust_gpu_power_limit_sequence host4 1515 200 "gpu_power_process" world0)
    as (evs & Hrun & _ & _ & Hseq & _).
  exists evs. split; [exact Hrun|].
  exact (proj2 (Hseq 0 eq_refl) eq_refl eq_refl).
Defined.

(** C6 as stated fails: on a host whose current cap is 250 W the adapter,
    asked for 200 W, hands [None] back to its caller, not 250. *)
Lemma adjust_gpu_power_limit_returns_no_prior_cap :
  os_nvmlDeviceGetPowerManagementLimit host4 0 = Ret 250000 /\
  fst (adjust_gpu_power_limit host4 1515 (PInt 200) "gpu_power_process" world0)
    = Ret PNone /\
  fst (adjust_gpu_power_limit host4 1515 (PInt 200) "gpu_power_process" world0)
    <> Ret (PInt (250000 / 1000)).
Proof. repeat split. discriminate. Qed.

(** ** C10: the GPU-usage adjustment *)

Lemma int_float_compare_ordered n x :
  is_nan (NFloat x) = false -> exists c, int_float_compare n x = Some c.
Proof. destruct x; try discriminate; intros _; eexists; reflexivity. Qed.

(** The clamp of an ordered number lies in the range; NaN goes through. *)
Lemma py_clamp_bounds (sum : pynum) :
  if is_nan sum then py_min (py_max sum (NInt 0)) (NInt 100) = sum
  else in_percent_range (py_min (py_max sum (NInt 0)) (NInt 100)) = true.
Proof.
  assert (Hflip : forall a b, (a ?= b) = CompOpp (b ?= a)) by (intros; apply Z.compare_antisym).
  destruct sum as [n|x].
  - cbn [is_nan].
    assert (H0 : (0 ?= n) = CompOpp (n ?= 0)) by apply Hflip.
    assert (H1 : (n ?= 100) = CompOpp (100 ?= n)) by apply Hflip.
    unfold py_min, py_max, num_lt; cbn [num_compare].
    destruct (n ?= 0) eqn:E0; cbn [CompOpp] in H0;
      unfold in_percent_range, num_le; cbn [num_compare]; try reflexivity.
    + destruct (100 ?= n) eqn:E1; cbn [CompOpp] in H1; cbn [num_compare];
        rewrite ?H0, ?H1, ?E1; reflexivity.
    + destruct (100 ?= n) eqn:E1; cbn [CompOpp] in H1; cbn [num_compare];
        rewrite ?H0, ?H1, ?E1; reflexivity.
  - destruct (is_nan (NFloat x)) eqn:Hn.
    + destruct x; try discriminate. reflexivity.
    + destruct (int_float_compare_ordered 0 x Hn) as (c0 & H0).
      destruct (int_float_compare_ordered 100 x Hn) as (c1 & H1).
      unfold py_min, py_max, num_lt; cbn [num_compare]. rewrite H0.
      destruct c0; cbn [fmap option_fmap option_map CompOpp num_compare]; rewrite ?H1;
        unfold in_percent_range, num_le; cbn [num_compare]; try reflexivity;
        destruct c1; cbn [num_compare]; rewrite ?H0, ?H1;
        cbn [fmap option_fmap option_map CompOpp]; reflexivity.
Qed.

Lemma comprehension_sums cfg_step (v sums : list pynum) (w : world) :
  Forall2 (fun gpu sum => num_add gpu cfg_step = Ret sum) v sums ->
  comprehension v (fun gpu =>
    sum <- lift (num_add gpu cfg_step) ;;
    ret (py_min (py_max sum (NInt 0)) (NInt 100))) w =
  (Ret ((fun sum => py_min (py_max sum (NInt 0)) (NInt 100)) <$> sums), w).
Proof.
  induction 1 as [|gpu sum v sums Hsum _ IH]; [reflexivity|].
  simpl. unfold bind, lift, ret in *. now rewrite Hsum, IH.
Qed.

(** C10, as the code has it.  With the [optimization_parameters] section
    present, and when every sum [v[i] + step] can be formed ([step] is
    [gpu_power_adjustment_step], 10 when that key is missing),
    [adjust_gpu_usage(process, v)] calls the GPU-usage setter once, for the
    pid of the process, with the vector whose i-th element is
    [min(max(v[i] + step, 0), 100)], evaluated on ints and floats as
    Python does.  An element passed lies in [0, 100] unless the sum is
    NaN; a NaN sum is passed on as it is. *)
Theorem adjust_gpu_usage_vector os cfg process (v sums : list pynum) w params :
  optimization_parameters cfg = Some params ->
  Forall2 (fun gpu sum =>
             num_add gpu (default (NInt 10) (params !! "gpu_power_adjustment_step"))
             = Ret sum) v sums ->
  let passed := (fun sum => py_min (py_max sum (NInt 0)) (NInt 100)) <$> sums in
  exists evs,
    adjust_gpu_usage os cfg process v w =
      (Ret tt, {| original_resource_limits := original_resource_limits w;
                  trace := trace w ++ evs |}) /\
    setter_calls evs = [(pid process, passed)] /\
    Forall2 (fun sum y => if is_nan sum then y = sum else in_percent_range y = true)
            sums passed.
Proof.
  intros Hp Hsums passed.
  assert (Hrun : exists evs,
    adjust_gpu_usage os cfg process v w = (Ret tt, after w evs) /\
    setter_calls evs = [(pid process, passed)]).
  { unfold adjust_gpu_usage. rewrite Hp.
    unfold try_except, bind at 1. rewrite (comprehension_sums _ v sums w Hsums).
    fold passed. run_monad.
    destruct (os_set_gpu_usage os (pid process) passed); simpl;
      (eexists; split; [now rewrite <- !app_assoc | reflexivity]). }
  destruct Hrun as (evs & Hrun & Hcalls).
  exists evs. split; [exact Hrun|]. split; [exact Hcalls|].
  unfold passed. apply Forall2_fmap_r, Forall_Forall2_diag, Forall_forall.
  intros sum _. apply py_clamp_bounds.
Qed.

Lemma adjust_gpu_usage_vector_witness :
  exists evs,
    adjust_gpu_usage host4 default_config gpu_miner
      [NFloat (float_of_Z 50); NFloat (float_of_Z 60)] world0 =
      (Ret tt, {| original_resource_limits := ∅; trace := [] ++ evs |}) /\
    setter_calls evs = [(12345, [NFloat (float_of_Z 60); NFloat (float_of_Z 70)])].
Proof.
  destruct (adjust_gpu_usage_vector host4 default_config gpu_miner
              [NFloat (float_of_Z 50); NFloat (float_of_Z 60)]
              [NFloat (float_of_Z 60); NFloat (float_of_Z 70)] world0 ∅ eq_refl)
    as (evs & Hrun & Hcalls & _).
  - repeat constructor.
  - exists evs. split; [exact Hrun | exact Hcalls].
Defined.

(** C10 as stated fails twice.  A NaN among the requested values reaches
    the setter as NaN, which does not lie in [0, 100]; and a request of
    100, with the default step of 10, reaches the setter as 100, the
    requested target itself. *)
Lemma adjust_gpu_usage_passes_nan_and_100 :
  setter_calls (trace (snd (adjust_gpu_usage host4 default_config gpu_miner
                              [NFloat S754_nan; NFloat (float_of_Z 100)] world0)))
    = [(12345, [NFloat S754_nan; NInt 100])] /\
  in_percent_range (NFloat S754_nan) = false /\
  num_compare (NInt 100) (NFloat (float_of_Z 100)) = Some Eq.
Proof. repeat split. Qed.

(** ** Adapter calls made by a computation *)

Lemma calls_app e1 e2 : calls (e1 ++ e2) = calls e1 ++ calls e2.
Proof. apply omap_app. Qed.

Lemma Runs_ret {A} (a : A) : Runs (ret a) a [].
Proof. intros w. exists []. split; [apply effect_ret | reflexivity]. Qed.

Lemma Runs_bind {A B} (m : M world A) (k : A -> M world B) a b c1 c2 :
  Runs m a c1 -> Runs (k a) b c2 -> Runs (bind m k) b (c1 ++ c2).
Proof.
  intros Hm Hk w.
  destruct (Hm w) as (e1 & He1 & Hc1).
  destruct (Hk (after w e1)) as (e2 & He2 & Hc2).
  exists (e1 ++ e2). split; [now apply effect_bind with a|].
  now rewrite calls_app, Hc1, Hc2.
Qed.

Lemma Runs_log l msg : Runs (log l msg) tt [].
Proof. intros w. exists [ELog l msg]. split; [apply effect_log | reflexivity]. Qed.

(** Closes a goal [exists evs, (r, w') = (r, after w evs) /\ calls evs = cs]
    once the computation has been run. *)
Ltac close_run :=
  first
    [ eexists; split; [rewrite <- ?app_assoc; simpl; reflexivity | reflexivity]
    | exists []; split;
      [match goal with w : world |- _ => destruct w; simpl; now rewrite app_nil_r end
      | reflexivity] ].

Ltac split_answers :=
  repeat match goal with
         | |- context [match ?x with _ => _ end] =>
             lazymatch x with
             | context [match _ with _ => _ end] => fail
             | _ => destruct x; simpl
             end
         end.

Lemma Runs_assign_process_resources os pid resources process_name :
  Runs (assign_process_resources os pid resources process_name) tt [].
Proof.
  intros w. unfold assign_process_resources, py_gt, py_le, py_range. run_monad.
  split_answers; close_run.
Qed.

Lemma Runs_adjust_cpu_frequency os pid v process_name :
  Runs (adjust_cpu_frequency os pid v process_name) tt [(CpuFrequency, pid, v)].
Proof.
  intros w.
  destruct (Runs_assign_process_resources os pid {[ "cpu_freq" := v ]} process_name
              (after w [ECall CpuFrequency pid v])) as (evs & He & Hc).
  exists (ECall CpuFrequency pid v :: evs ++ [ELog INFO "Set CPU frequency to {frequency}MHz for process {process_name} (PID: {pid})."]).
  split.
  - unfold adjust_cpu_frequency.
    apply (effect_bind _ _ _ tt tt [_]); [apply effect_emit|].
    apply effect_try. eapply effect_bind; [exact He | apply effect_log].
  - simpl. now rewrite calls_app, Hc.
Qed.

Lemma Runs_adjust_cpu_threads os pid v process_name :
  Runs (adjust_cpu_threads os pid v process_name) tt [(CpuThreads, pid, v)].
Proof.
  intros w.
  destruct (Runs_assign_process_resources os pid {[ "cpu_threads" := v ]} process_name
              (after w [ECall CpuThreads pid v])) as (evs & He & Hc).
  exists (ECall CpuThreads pid v :: evs ++ [ELog INFO msg_threads_adjusted]).
  split.
  - unfold adjust_cpu_threads.
    apply (effect_bind _ _ _ tt tt [_]); [apply effect_emit|].
    apply effect_try. eapply effect_bind; [exact He | apply effect_log].
  - simpl. now rewrite calls_app, Hc.
Qed.

Lemma Runs_adjust_ram_allocation os pid v process_name :
  Runs (adjust_ram_allocation os pid v process_name) tt [(RamAllocation, pid, v)].
Proof.
  intros w.
  destruct (Runs_assign_process_resources os pid {[ "memory" := v ]} process_name
              (after w [ECall RamAllocation pid v])) as (evs & He & Hc).
  exists (ECall RamAllocation pid v :: evs ++ [ELog INFO "Adjusted RAM limit to {ram_allocation_mb}MB for process {process_name} (PID: {pid})."]).
  split.
  - unfold adjust_ram_allocation.
    apply (effect_bind _ _ _ tt tt [_]); [apply effect_emit|].
    apply effect_try. eapply effect_bind; [exact He | apply effect_log].
  - simpl. now rewrite calls_app, Hc.
Qed.

Lemma Runs_adjust_gpu_power_limit os pid v process_name :
  Runs (adjust_gpu_power_limit os pid v process_name) PNone [(GpuPowerLimit, pid, v)].
Proof.
  intros w. unfold adjust_gpu_power_limit, py_mul_int. run_monad.
  split_answers; close_run.
Qed.

Lemma Runs_adjust_disk_io_priority os pid v process_name :
  Runs (adjust_disk_io_priority os pid v process_name) tt [(DiskIoPriority, pid, v)].
Proof.
  intros w. unfold adjust_disk_io_priority. run_monad.
  split_answers; close_run.
Qed.

Lemma Runs_adjust_network_bandwidth process v :
  Runs (adjust_network_bandwidth process v) tt [(NetworkBandwidth, pid process, v)].
Proof.
  intros w. unfold adjust_network_bandwidth, apply_network_cloaking,
    configure_network_interface. run_monad. close_run.
Qed.

(** ** restore_resources *)

Lemma Runs_if_saved saved key body a p :
  (forall v, Runs (body v) tt [(a, p, v)]) ->
  Runs (if_saved saved key body) tt (option_list (restored_knob p saved (key, a))).
Proof.
  intros Hbody. unfold if_saved, restored_knob; simpl.
  destruct (saved !! key) as [v|]; simpl; [|apply Runs_ret].
  destruct (truthy v); simpl; [apply Hbody | apply Runs_ret].
Qed.

Lemma Runs_then_log {A} (m : M world A) a cs l msg :
  Runs m a cs -> Runs (m ;; log l msg) tt cs.
Proof.
  intros Hm. rewrite <- (app_nil_r cs).
  eapply Runs_bind; [exact Hm | apply Runs_log].
Qed.

Lemma bind_run {A B} (m : M world A) (k : A -> M world B) w a evs :
  effect m w a evs -> bind m k w = k a (after w evs).
Proof. unfold effect, bind, after. now intros ->. Qed.

Lemma restore_resources_run os process w saved :
  original_resource_limits w !! pid process = Some saved ->
  size saved <> 0%nat ->
  exists evs,
    restore_resources os process w =
      (Ret tt, {| original_resource_limits := delete (pid process) (original_resource_limits w);
                  trace := trace w ++ evs |}) /\
    calls evs = restored (pid process) saved.
Proof.
  intros Hsaved Hsize. unfold restore_resources.
  unfold try_except. unfold bind at 1. unfold get at 1. rewrite Hsaved.
  rewrite bool_decide_eq_false_2 by exact Hsize.
  edestruct (Runs_if_saved saved "cpu_freq") as (e1 & He1 & Hc1);
    [intros v; eapply Runs_then_log, Runs_adjust_cpu_frequency|].
  rewrite (bind_run _ _ _ _ _ He1).
  edestruct (Runs_if_saved saved "cpu_threads") as (e2 & He2 & Hc2);
    [intros v; eapply Runs_then_log, Runs_adjust_cpu_threads|].
  rewrite (bind_run _ _ _ _ _ He2).
  edestruct (Runs_if_saved saved "ram_allocation_mb") as (e3 & He3 & Hc3);
    [intros v; eapply Runs_then_log, Runs_adjust_ram_allocation|].
  rewrite (bind_run _ _ _ _ _ He3).
  edestruct (Runs_if_saved saved "gpu_power_limit") as (e4 & He4 & Hc4);
    [intros v; eapply Runs_then_log, Runs_adjust_gpu_power_limit|].
  rewrite (bind_run _ _ _ _ _ He4).
  edestruct (Runs_if_saved saved "ionice_class") as (e5 & He5 & Hc5);
    [intros v; eapply Runs_then_log, Runs_adjust_disk_io_priority|].
  rewrite (bind_run _ _ _ _ _ He5).
  edestruct (Runs_if_saved saved "network_bandwidth_limit_mbps") as (e6 & He6 & Hc6);
    [intros v; eapply Runs_then_log, Runs_adjust_network_bandwidth|].
  rewrite (bind_run _ _ _ _ _ He6).
  rewrite !after_after. run_monad. rewrite Hsaved. simpl.
  eexists. split; [now rewrite <- !app_assoc|].
  rewrite !calls_app, Hc1, Hc2, Hc3, Hc4, Hc5, Hc6. unfold restored. simpl.
  repeat match goal with |- context [option_list ?x] => destruct x; simpl end.
  all: reflexivity.
Qed.

Lemma restore_order_functional k k' a :
  (k, a) ∈ restore_order -> (k', a) ∈ restore_order -> k = k'.
Proof.
  unfold restore_order. rewrite !elem_of_cons, !elem_of_nil.
  intros H H'.
  repeat match goal with
         | H : _ \/ _ |- _ => destruct H as [H|H]
         | H : (_, _) = (_, _) |- _ => injection H as ??; subst
         | H : False |- _ => destruct H
         end; congruence.
Qed.

Lemma elem_of_restored p saved c :
  c ∈ restored p saved <->
  exists key a v, c = (a, p, v) /\ (key, a) ∈ restore_order /\
                  saved !! key = Some v /\ truthy v = true.
Proof.
  unfold restored. rewrite list_elem_of_omap. split.
  - intros ([key a] & Hin & Hk). unfold restored_knob in Hk; simpl in Hk.
    destruct (saved !! key) as [v|] eqn:Hv; [|discriminate].
    destruct (truthy v) eqn:Ht; [|discriminate].
    injection Hk as <-. now exists key, a, v.
  - intros (key & a & v & -> & Hin & Hv & Ht). exists (key, a). split; [exact Hin|].
    unfold restored_knob; simpl. now rewrite Hv, Ht.
Qed.

(** ** C1: what restore_resources restores and when it forgets *)

(** C1, as the code has it.  For a pid with a non-empty entry,
    [restore_resources] enters the matching adapter with the saved value
    for every one of the six knobs whose saved value is truthy, returns
    normally, and removes the entry of the pid, whatever the host answers
    to the commands and SDK calls the adapters make: the adapters catch and
    log their own failures. *)
Theorem restore_resources_restores os process w saved :
  original_resource_limits w !! pid process = Some saved ->
  saved <> ∅ ->
  exists evs,
    restore_resources os process w =
      (Ret tt, {| original_resource_limits := delete (pid process) (original_resource_limits w);
                  trace := trace w ++ evs |}) /\
    forall key a v,
      (key, a) ∈ restore_order -> saved !! key = Some v -> truthy v = true ->
      (a, pid process, v) ∈ calls evs.
Proof.
  intros Hsaved Hne. apply map_size_non_empty_iff in Hne.
  destruct (restore_resources_run os process w saved Hsaved Hne) as (evs & Hrun & Hcalls).
  exists evs. split; [exact Hrun|].
  intros key a v Hin Hv Ht. rewrite Hcalls. apply elem_of_restored.
  now exists key, a, v.
Qed.

Lemma restore_resources_restores_witness :
  exists evs,
    restore_resources host_ionice_fails restore_process saved_ionice =
      (Ret tt, {| original_resource_limits := delete 2121 (original_resource_limits saved_ionice);
                  trace := [] ++ evs |}) /\
    (DiskIoPriority, 2121, PInt 2) ∈ calls evs.
Proof.
  destruct (restore_resources_restores host_ionice_fails restore_process saved_ionice
              {[ "ionice_class" := PInt 2 ]} eq_refl) as (evs & Hrun & Hcalls).
  - intros H. apply (f_equal (lookup "ionice_class")) in H. vm_compute in H. discriminate.
  - exists evs. split; [exact Hrun|].
    apply (Hcalls "ionice_class" DiskIoPriority (PInt 2)); [|reflexivity..].
    unfold restore_order. rewrite !elem_of_cons. tauto.
Defined.

(** C1 as stated fails: the ionice command fails, the adapter logs the
    error, and the entry of the pid is removed all the same. *)
Lemma restore_resources_forgets_after_failure :
  let '(r, w') := restore_resources host_ionice_fails restore_process saved_ionice in
  r = Ret tt /\
  EIonice (PInt 2) 2121 ∈ trace w' /\
  ELog ERROR "Error executing ionice: {e}" ∈ trace w' /\
  original_resource_limits w' !! 2121 = None.
Proof.
  destruct (restore_resources _ _ _) as [r w'] eqn:E.
  vm_compute in E. injection E as <- <-. cbn [trace original_resource_limits].
  split; [reflexivity|]. split; [rewrite !elem_of_cons; tauto|].
  split; [rewrite !elem_of_cons; tauto | reflexivity].
Qed.

(** ** C8: falsy saved values *)

(** C8.  When the entry of a pid holds a falsy value ([None], [0], [0.0])
    for one of the six knobs, [restore_resources] never enters the adapter
    of that knob, and it still returns normally and deletes the whole
    entry of the pid. *)
Theorem restore_resources_skips_falsy os process w saved key a v :
  original_resource_limits w !! pid process = Some saved ->
  (key, a) ∈ restore_order ->
  saved !! key = Some v ->
  truthy v = false ->
  exists evs,
    restore_resources os process w =
      (Ret tt, {| original_resource_limits := delete (pid process) (original_resource_limits w);
                  trace := trace w ++ evs |}) /\
    (forall p v', (a, p, v') ∉ calls evs) /\
    delete (pid process) (original_resource_limits w) !! pid process = None.
Proof.
  intros Hsaved Hin Hv Ht.
  assert (Hsize : size saved <> 0%nat).
  { apply map_size_non_empty_iff. intros ->. now rewrite lookup_empty in Hv. }
  destruct (restore_resources_run os process w saved Hsaved Hsize) as (evs & Hrun & Hcalls).
  exists evs. split; [exact Hrun|]. split; [|apply lookup_delete_eq].
  intros p v'. rewrite Hcalls, elem_of_restored.
  intros (key' & a' & v'' & Heq & Hin' & Hv' & Ht'). injection Heq as -> -> ->.
  assert (key = key') as <- by (eapply restore_order_functional; eassumption).
  congruence.
Qed.

Lemma restore_resources_skips_falsy_witness :
  exists evs,
    restore_resources host4 restore_process saved_zero =
      (Ret tt, {| original_resource_limits := delete 2121 (original_resource_limits saved_zero);
                  trace := [] ++ evs |}) /\
    (forall p v', (DiskIoPriority, p, v') ∉ calls evs) /\
    delete 2121 (original_resource_limits saved_zero) !! 2121 = None.
Proof.
  apply (restore_resources_skips_falsy host4 restore_process saved_zero
           {[ "ionice_class" := PInt 0; "cpu_freq" := PNone ]}
           "ionice_class" DiskIoPriority (PInt 0)).
  - reflexivity.
  - unfold restore_order. rewrite !elem_of_cons. tauto.
  - reflexivity.
  - reflexivity.
Defined.

(** ** C2: what apply_cloak_strategy saves *)

(** Whatever was saved for [cpu_freq] before, [save_originals] replaces it
    by the current reading. *)
Lemma save_originals_replaces {strategy} (c : collaborators strategy) p target v w saved :
  get_current_cpu_frequency c p = ret v ->
  original_resource_limits w !! p = Some saved ->
  saved_value (snd (save_originals c p [("cpu_freq", target)] w)) p "cpu_freq" = Some v.
Proof.
  intros Hread Hsaved. unfold save_originals, record_original, saved_value.
  run_monad. rewrite Hsaved. simpl. rewrite Hread. run_monad. rewrite Hsaved. simpl.
  rewrite lookup_insert_eq. simpl. apply lookup_insert_eq.
Qed.

(** C2 fails on the code.  The cpu strategy is applied to pid 1001 twice:
    the CPU runs at 3000 MHz before the first application and at 2500 MHz
    before the second.  After the first application the saved original
    frequency is 3000; the second application overwrites it with 2500. *)
Theorem apply_cloak_strategy_overwrites_saved_original :
  let w1 := snd (apply_cloak_strategy default_config (collaborators_at host4 3000)
                   "cpu" cpu_miner world0) in
  let w2 := snd (apply_cloak_strategy default_config (collaborators_at host4 2500)
                   "cpu" cpu_miner w1) in
  saved_value w1 1001 "cpu_freq" = Some (PInt 3000) /\
  saved_value w2 1001 "cpu_freq" = Some (PInt 2500).
Proof. split; vm_compute; reflexivity. Qed.

(** ** utils.py: the GPU reading *)

Lemma sum_memory_eq env field err s :
  sum_memory env field err s =
    if negb (gm_gpu_initialized env) then (Ret 0%Q, s)
    else
      match memory_sum env field (seq 0 (gm_gpu_count env)) 0%Q with
      | Ret total => (Ret total, s)
      | Raise e => if is_NVMLError e then (Ret 0%Q, logged s ERROR err) else (Raise e, s)
      end.
Proof.
  unfold sum_memory. destruct (gm_gpu_initialized env); simpl; [|reflexivity].
  unfold try_except, lift.
  destruct (memory_sum _ _ _ _) as [total|e]; [reflexivity|].
  now destruct (is_NVMLError e).
Qed.

Lemma get_gpu_usage_body_eq env s :
  get_gpu_usage_body env s =
    if negb (gm_gpu_initialized env) then (Ret 0%Q, s)
    else
      match get_total_gpu_memory env s with
      | (Raise e, s1) => (Ret 0%Q, logged s1 ERROR msg_gpu_usage_error)
      | (Ret total, s1) =>
          match get_used_gpu_memory env s1 with
          | (Raise e, s2) => (Ret 0%Q, logged s2 ERROR msg_gpu_usage_error)
          | (Ret used, s2) =>
              (Ret (if Qeq_bool total 0 then 0 else used / total * 100)%Q, s2)
          end
      end.
Proof.
  unfold get_gpu_usage_body. destruct (negb _); [reflexivity|].
  unfold try_except, bind.
  destruct (get_total_gpu_memory env s) as [[total|e] s1]; [|reflexivity].
  destruct (get_used_gpu_memory env s1) as [[used|e] s2]; [|reflexivity].
  unfold py_truediv, lift, ret.
  now destruct (Qeq_bool total 0).
Qed.

Lemma get_gpu_usage_body_returns env s :
  exists q s', get_gpu_usage_body env s = (Ret q, s').
Proof.
  rewrite get_gpu_usage_body_eq.
  destruct (negb _); [now eexists _, _|].
  destruct (get_total_gpu_memory env s) as [[total|e] s1]; [|now eexists _, _].
  destruct (get_used_gpu_memory env s1) as [[used|e] s2]; now eexists _, _.
Qed.

Lemma get_gpu_usage_undecorated env s : get_gpu_usage env s = get_gpu_usage_body env s.
Proof.
  unfold get_gpu_usage, retry; simpl. unfold try_except.
  destruct (get_gpu_usage_body_returns env s) as (q & s' & ->). reflexivity.
Qed.

(** ** C9: no division by zero in get_gpu_usage *)

(** C9.  [get_gpu_usage] always returns a number and never raises.  With
    the GPU manager uninitialised it returns 0 at once, reading nothing.
    Otherwise it reads the total and the used memory; when both readings
    return, the result is 0 if the total is zero and
    [used / total * 100] if it is not, and the exception handler is not
    entered (no error is logged): the quotient is never taken with a zero
    denominator.  When a reading raises, the error is logged and the
    result is 0. *)
Theorem get_gpu_usage_never_divides_by_zero env s :
  (exists q s', get_gpu_usage env s = (Ret q, s')) /\
  get_gpu_usage env s =
    if negb (gm_gpu_initialized env) then (Ret 0%Q, s)
    else
      match get_total_gpu_memory env s with
      | (Raise e, s1) => (Ret 0%Q, logged s1 ERROR msg_gpu_usage_error)
      | (Ret total, s1) =>
          match get_used_gpu_memory env s1 with
          | (Raise e, s2) => (Ret 0%Q, logged s2 ERROR msg_gpu_usage_error)
          | (Ret used, s2) =>
              (Ret (if Qeq_bool total 0 then 0 else used / total * 100)%Q, s2)
          end
      end.
Proof.
  rewrite get_gpu_usage_undecorated. split.
  - apply get_gpu_usage_body_returns.
  - apply get_gpu_usage_body_eq.
Qed.

Arguments get_gpu_usage : simpl never.

Lemma ustate_eta s : {| self := self s; ulog := ulog s ++ [] |} = s.
Proof. destruct s; simpl. now rewrite app_nil_r. Qed.

Lemma get_gpu_usage_run env s :
  exists q l,
    get_gpu_usage env s = (Ret q, {| self := self s; ulog := ulog s ++ l |}) /\
    (gm_gpu_initialized env = true ->
     forall total used,
       memory_sum env fst (seq 0 (gm_gpu_count env)) 0%Q = Ret total ->
       memory_sum env snd (seq 0 (gm_gpu_count env)) 0%Q = Ret used ->
       Qeq_bool total 0 = false ->
       q = (used / total * 100)%Q).
Proof.
  rewrite get_gpu_usage_undecorated, get_gpu_usage_body_eq.
  unfold get_total_gpu_memory, get_used_gpu_memory. rewrite !sum_memory_eq.
  destruct (gm_gpu_initialized env) eqn:Hinit; simpl.
  2:{ exists 0%Q, []. split; [now rewrite ustate_eta | discriminate]. }
  destruct (memory_sum env fst _ _) as [total|e1]; simpl.
  - rewrite sum_memory_eq, Hinit; simpl.
    destruct (memory_sum env snd _ _) as [used|e2]; simpl.
    + eexists _, []. split; [now rewrite ustate_eta|].
      intros _ t u [= <-] [= <-] ->. reflexivity.
    + destruct (is_NVMLError e2); simpl;
        (eexists _, _; split; [unfold logged; simpl; rewrite <- ?app_assoc; reflexivity
                              | intros _ t u _ [=]]).
  - destruct (is_NVMLError e1); simpl.
    + rewrite sum_memory_eq, Hinit; simpl.
      destruct (memory_sum env snd _ _) as [used|e2]; simpl;
        [|destruct (is_NVMLError e2); simpl];
        (eexists _, _; split; [unfold logged; simpl; rewrite <- ?app_assoc; reflexivity
                              | intros _ t u [=]]).
    + eexists _, _. split; [reflexivity | intros _ t u [=]].
Qed.

(** ** utils.py: one sample *)

Ltac run_sample :=
  unfold update_resource_usage, try_except, bind, lift, ret, raise, get, update_self,
    ulog_event, modify, is_gpu_process in *; simpl.

Ltac run_gpu_reading env :=
  match goal with
  | |- context [get_gpu_usage env ?S] =>
      let q := fresh "q" in
      let l := fresh "l" in
      let Hrun := fresh "Hrun" in
      let Hq := fresh "Hq" in
      destruct (get_gpu_usage_run env S) as (q & l & Hrun & Hq);
      rewrite Hrun; simpl in *
  end.

Lemma update_resource_usage_reads env s sent recv :
  reads env (network_interface (self s)) sent recv ->
  exists cpu mem dio g,
    self (snd (update_resource_usage env s)) =
      set_gpu_usage g
        (set_prev_bytes (Some sent) (Some recv)
           (set_network_io
              match _prev_bytes_sent (self s), _prev_bytes_recv (self s) with
              | Some prev_sent, Some prev_recv =>
                  (inject_Z ((sent - prev_sent) + (recv - prev_recv)) / MiB)%Q
              | _, _ => 0%Q
              end
              (set_disk_io dio (set_memory_usage mem (set_cpu_usage cpu (self s)))))) /\
    (gpu_initialized (self s) && is_gpu_process (self s) = false -> g = 0%Q) /\
    (gpu_initialized (self s) && is_gpu_process (self s) = true ->
     gm_gpu_initialized env = true ->
     forall total used,
       memory_sum env fst (seq 0 (gm_gpu_count env)) 0%Q = Ret total ->
       memory_sum env snd (seq 0 (gm_gpu_count env)) 0%Q = Ret used ->
       Qeq_bool total 0 = false ->
       g = (used / total * 100)%Q).
Proof.
  intros (Hp & (cpu & Hc) & (mem & Hm) & (io & Hio) & (net_io & Hn & Hi)).
  exists cpu, mem, (inject_Z (fst io + snd io) / MiB)%Q.
  run_sample. rewrite Hp, Hc, Hm, Hio, Hn. simpl. rewrite Hi.
  destruct (_prev_bytes_sent (self s)) as [ps|], (_prev_bytes_recv (self s)) as [pr|]; simpl;
    (destruct (gpu_initialized (self s) && _) eqn:G; simpl;
     [run_gpu_reading env; exists q; split; [reflexivity | split; [discriminate | auto]]
     |exists 0%Q; split; [reflexivity | split; [reflexivity | discriminate]]]).
Qed.

Lemma update_resource_usage_not_gpu env s :
  is_gpu_process (self s) = false ->
  gpu_usage (self (snd (update_resource_usage env s))) = 0%Q.
Proof.
  intros Hg. run_sample. simpl in Hg.
  destruct (ps_process env); simpl; [now destruct e|].
  destruct (ps_cpu_percent env); simpl; [|now destruct e].
  destruct (ps_memory_percent env); simpl; [|now destruct e].
  destruct (ps_io_counters env); simpl; [|now destruct e].
  destruct (ps_net_io_counters env) as [net_io|]; simpl; [|now destruct e].
  destruct (net_io !! network_interface (self s)) as [[sent recv]|]; simpl.
  - destruct (_prev_bytes_sent (self s)), (_prev_bytes_recv (self s)); simpl;
      now rewrite Hg, andb_false_r.
  - now rewrite Hg, andb_false_r.
Qed.

Lemma update_resource_usage_first env s :
  _prev_bytes_sent (self s) = None ->
  network_io (self (snd (update_resource_usage env s))) = 0%Q.
Proof.
  intros Hprev. run_sample.
  destruct (ps_process env); simpl; [now destruct e|].
  destruct (ps_cpu_percent env); simpl; [|now destruct e].
  destruct (ps_memory_percent env); simpl; [|now destruct e].
  destruct (ps_io_counters env); simpl; [|now destruct e].
  destruct (ps_net_io_counters env) as [net_io|]; simpl; [|now destruct e].
  rewrite Hprev.
  destruct (net_io !! network_interface (self s)) as [[sent recv]|]; simpl;
    (destruct (gpu_initialized (self s) && _); simpl;
     [run_gpu_reading env; reflexivity | reflexivity]).
Qed.

Lemma update_resource_usage_gpu_process env s total used :
  sampled env ->
  gpu_initialized (self s) = true ->
  is_gpu_process (self s) = true ->
  gm_gpu_initialized env = true ->
  memory_sum env fst (seq 0 (gm_gpu_count env)) 0%Q = Ret total ->
  memory_sum env snd (seq 0 (gm_gpu_count env)) 0%Q = Ret used ->
  Qeq_bool total 0 = false ->
  gpu_usage (self (snd (update_resource_usage env s))) = (used / total * 100)%Q.
Proof.
  intros (Hp & (cpu & Hc) & (mem & Hm) & (io & Hio) & (net_io & Hn)) Hi Hg Hinit Ht Hu Hz.
  run_sample. simpl in Hg. rewrite Hp, Hc, Hm, Hio, Hn. simpl.
  destruct (net_io !! network_interface (self s)) as [[sent recv]|]; simpl.
  - destruct (_prev_bytes_sent (self s)), (_prev_bytes_recv (self s)); simpl;
      rewrite Hi, Hg; simpl; run_gpu_reading env; now apply Hq.
  - rewrite Hi, Hg; simpl. run_gpu_reading env. now apply Hq.
Qed.

(** ** Substrings *)

Lemma prefix_append (s t : string) : String.prefix s (s ++ t)%string = true.
Proof.
  induction s as [|a s IH]; [cbn; now destruct t|].
  change (String a s +:+ t) with (String a (s +:+ t)). cbn [String.prefix].
  destruct (ascii_dec a a) as [_|H]; [exact IH | now destruct H].
Qed.

Lemma prefix_inv (s1 s2 : string) :
  String.prefix s1 s2 = true -> exists t, s2 = (s1 ++ t)%string.
Proof.
  revert s2. induction s1 as [|a s1 IH]; intros s2 H.
  - now exists s2.
  - destruct s2 as [|b s2]; [discriminate|]. cbn in H.
    destruct (ascii_dec a b) as [->|]; [|discriminate].
    destruct (IH s2 H) as (t & ->). now exists t.
Qed.

Lemma contains_unfold (needle hay : string) :
  contains needle hay =
    String.prefix needle hay ||
    match hay with
    | EmptyString => false
    | String _ hay' => contains needle hay'
    end.
Proof. now destruct hay. Qed.

Lemma contains_iff (needle hay : string) :
  contains needle hay = true <->
  exists pre post, hay = (pre ++ needle ++ post)%string.
Proof.
  split.
  - induction hay as [|a hay IH]; cbn [contains]; intros H.
    + rewrite orb_false_r in H. apply prefix_inv in H as (t & Ht). now exists ""%string, t.
    + apply orb_true_iff in H as [H|H].
      * apply prefix_inv in H as (t & Ht). now exists ""%string, t.
      * destruct (IH H) as (pre & post & ->). now exists (String a pre), post.
  - intros (pre & post & ->). induction pre as [|a pre IH].
    + change ("" +:+ needle +:+ post) with (needle +:+ post).
      rewrite contains_unfold, prefix_append. reflexivity.
    + change (String a pre +:+ needle +:+ post) with (String a (pre +:+ needle +:+ post)).
      cbn [contains]. rewrite IH. apply orb_true_r.
Qed.

Lemma is_gpu_process_substring p :
  is_gpu_process p = true <->
  exists keyword pre post,
    keyword ∈ ["llmsengen"; "gpu_miner"] /\
    lower (name p) = (pre ++ keyword ++ post)%string.
Proof.
  unfold is_gpu_process, gpu_process_keywords. rewrite existsb_exists. split.
  - intros (kw & Hin & H). apply contains_iff in H as (pre & post & H).
    exists kw, pre, post. split; [now apply list_elem_of_In | exact H].
  - intros (kw & pre & post & Hin & H). exists kw. split; [now apply list_elem_of_In|].
    apply contains_iff. now exists pre, post.
Qed.

(** ** C4: the GPU usage a sample reports *)

(** C4, as the code has it.  The GPU-worker substrings are the two built
    into [is_gpu_process], [llmsengen] and [gpu_miner]; no configuration
    is read.  A process whose lower-cased name contains neither of them is
    reported with 0 percent GPU usage by every sample, whatever the
    devices say.  For a process whose lower-cased name does contain one,
    on a host with an initialised GPU manager, a sample that goes through
    reports [used / total * 100], where [total] and [used] are the total
    and the used memory summed over the devices (there is no per-process
    accounting), provided the total is not zero. *)
Theorem update_resource_usage_gpu_report env s :
  ((forall keyword pre post,
      keyword ∈ ["llmsengen"; "gpu_miner"] ->
      lower (name (self s)) <> (pre ++ keyword ++ post)%string) ->
   gpu_usage (self (snd (update_resource_usage env s))) = 0%Q) /\
  (forall keyword pre post total used,
     keyword ∈ ["llmsengen"; "gpu_miner"] ->
     lower (name (self s)) = (pre ++ keyword ++ post)%string ->
     gpu_initialized (self s) = true ->
     gm_gpu_initialized env = true ->
     sampled env ->
     memory_sum env fst (seq 0 (gm_gpu_count env)) 0%Q = Ret total ->
     memory_sum env snd (seq 0 (gm_gpu_count env)) 0%Q = Ret used ->
     ~ (total == 0)%Q ->
     gpu_usage (self (snd (update_resource_usage env s))) = (used / total * 100)%Q).
Proof.
  split.
  - intros Hnone. apply update_resource_usage_not_gpu.
    apply not_true_iff_false. intros Hg.
    apply is_gpu_process_substring in Hg as (kw & pre & post & Hin & Hname).
    exact (Hnone kw pre post Hin Hname).
  - intros kw pre post total used Hin Hname Hi Hinit Hs Ht Hu Hz.
    apply update_resource_usage_gpu_process; try assumption.
    + apply is_gpu_process_substring. now exists kw, pre, post.
    + apply not_true_iff_false. intros H. now apply Hz, Qeq_bool_iff.
Qed.

Lemma update_resource_usage_gpu_report_witness :
  (gpu_usage (self (snd (update_resource_usage (sample_at 0 0)
                           (registered (MiningProcess_init 1002 "GPU_Miner" 3 "eth0" true)))))
   == 25)%Q.
Proof.
  rewrite (proj2 (update_resource_usage_gpu_report (sample_at 0 0)
                    (registered (MiningProcess_init 1002 "GPU_Miner" 3 "eth0" true)))
             "gpu_miner" "" ""
             (0 + inject_Z 8589934592 / MiB)%Q (0 + inject_Z 2147483648 / MiB)%Q).
  - reflexivity.
  - apply elem_of_cons. right. apply elem_of_cons. now left.
  - reflexivity.
  - reflexivity.
  - reflexivity.
  - repeat split; eexists; reflexivity.
  - reflexivity.
  - reflexivity.
  - intros H. vm_compute in H. discriminate.
Defined.

(** C4 as stated fails: the sample takes no configuration.  With
    [cuda_worker] as the only configured GPU-worker substring, a process
    named [llmsengen] matches no configured substring, and yet it is
    reported with the used share of the device memory, 25 percent here,
    not 0. *)
Lemma update_resource_usage_ignores_configured_substrings :
  matches_configured ["cuda_worker"] "llmsengen" = false /\
  (gpu_usage (self (snd (update_resource_usage (sample_at 0 0)
                           (registered (MiningProcess_init 1003 "llmsengen" 3 "eth0" true)))))
   == 25)%Q /\
  ~ (25 == 0)%Q.
Proof.
  split; [reflexivity|]. split; [|discriminate].
  rewrite (update_resource_usage_gpu_process (sample_at 0 0)
             (registered (MiningProcess_init 1003 "llmsengen" 3 "eth0" true))
             (0 + inject_Z 8589934592 / MiB)%Q (0 + inject_Z 2147483648 / MiB)%Q);
    try reflexivity.
  repeat split; eexists; reflexivity.
Qed.

(** ** C5: the network I/O a sample reports *)

Lemma sample_keeps_identity env s :
  identity (self (snd (update_resource_usage env s))) = identity (self s).
Proof.
  run_sample.
  destruct (ps_process env); simpl; [now destruct e|].
  destruct (ps_cpu_percent env); simpl; [|now destruct e].
  destruct (ps_memory_percent env); simpl; [|now destruct e].
  destruct (ps_io_counters env); simpl; [|now destruct e].
  destruct (ps_net_io_counters env) as [net_io|]; simpl; [|now destruct e].
  destruct (net_io !! network_interface (self s)) as [[sent recv]|]; simpl.
  - destruct (_prev_bytes_sent (self s)), (_prev_bytes_recv (self s)); simpl;
      (destruct (gpu_initialized (self s) && _); simpl;
       [run_gpu_reading env; reflexivity | reflexivity]).
  - destruct (gpu_initialized (self s) && _); simpl;
      [run_gpu_reading env; reflexivity | reflexivity].
Qed.

Lemma sample_network_io env s :
  network_io (self (snd (update_resource_usage env s))) =
    match counters env (network_interface (self s)), baseline (self s) with
    | Some (sent, recv), (Some prev_sent, Some prev_recv) =>
        (inject_Z ((sent - prev_sent) + (recv - prev_recv)) / inject_Z (1024 * 1024))%Q
    | _, _ => 0%Q
    end /\
  baseline (self (snd (update_resource_usage env s))) =
    match counters env (network_interface (self s)) with
    | Some (sent, recv) => (Some sent, Some recv)
    | None => baseline (self s)
    end.
Proof.
  unfold counters, baseline. run_sample.
  destruct (ps_process env) as [e|]; simpl; [now destruct e|].
  destruct (ps_cpu_percent env) as [cpu|e]; simpl; [|now destruct e].
  destruct (ps_memory_percent env) as [mem|e]; simpl; [|now destruct e].
  destruct (ps_io_counters env) as [io|e]; simpl; [|now destruct e].
  destruct (ps_net_io_counters env) as [net_io|e]; simpl; [|now destruct e].
  destruct (net_io !! network_interface (self s)) as [[sent recv]|]; simpl.
  - destruct (_prev_bytes_sent (self s)) as [ps|], (_prev_bytes_recv (self s)) as [pr|]; simpl;
      (destruct (gpu_initialized (self s) && _); simpl;
       [run_gpu_reading env; split; reflexivity | split; reflexivity]).
  - destruct (gpu_initialized (self s) && _); simpl;
      [run_gpu_reading env; split; reflexivity | split; reflexivity].
Qed.

Lemma samples_keep s envs :
  forall seen,
    baseline (self s) = stored seen ->
    network_interface (self (samples envs s)) = network_interface (self s) /\
    baseline (self (samples envs s)) =
      stored (foldl (fun seen env => match counters env (network_interface (self s)) with
                                     | Some c => Some c
                                     | None => seen
                                     end) seen envs).
Proof.
  revert s. induction envs as [|env envs IH]; intros s seen Hb; [now split|].
  cbn [samples foldl].
  pose proof (sample_keeps_identity env s) as Hid.
  assert (Hi : network_interface (self (snd (update_resource_usage env s))) =
               network_interface (self s)).
  { unfold identity in Hid. now injection Hid. }
  destruct (sample_network_io env s) as [_ Hb1].
  destruct (IH (snd (update_resource_usage env s))
              (match counters env (network_interface (self s)) with
               | Some c => Some c
               | None => seen
               end)) as [Hi2 Hb2].
  { rewrite Hb1. destruct (counters env _) as [[sent recv]|]; [reflexivity | exact Hb]. }
  rewrite Hi in Hi2, Hb2. split; [exact Hi2 | exact Hb2].
Qed.

(** C5, as the code has it.  The first sample of a freshly registered
    process reports 0 MB of network I/O.  A later sample that gets to read
    the counters of the interface reports
    [((sent - prev_sent) + (recv - prev_recv)) / (1024 * 1024)] MB, where
    [prev_sent] and [prev_recv] are the counters read by the most recent
    earlier sample that got to read them, which need not be the previous
    sample; it reports 0 when there is no such sample.  A sample that does
    not get to read the counters (a psutil call raised, or the interface
    is not listed) reports 0. *)
Theorem update_resource_usage_network_io pid name priority iface manager_initialized envs env :
  let s := samples envs (registered (MiningProcess_init pid name priority iface
                                       manager_initialized)) in
  network_io (self (snd (update_resource_usage env s))) =
    match counters env iface, last_counters iface envs with
    | Some (sent, recv), Some (prev_sent, prev_recv) =>
        (inject_Z ((sent - prev_sent) + (recv - prev_recv)) / inject_Z (1024 * 1024))%Q
    | _, _ => 0%Q
    end.
Proof.
  intros s.
  destruct (samples_keep (registered (MiningProcess_init pid name priority iface
                                        manager_initialized)) envs None eq_refl)
    as [Hi Hb].
  fold s in Hi, Hb. cbn [registered self MiningProcess_init network_interface] in Hi, Hb.
  destruct (sample_network_io env s) as [Hio _].
  rewrite Hio, Hi, Hb. unfold last_counters.
  destruct (counters env iface) as [[sent recv]|]; [|reflexivity].
  now destruct (foldl _ None envs) as [[ps pr]|].
Qed.

Lemma update_resource_usage_network_io_witness :
  let s0 := registered (MiningProcess_init 1001 "cpu_miner" 2 "eth0" false) in
  let s1 := snd (update_resource_usage (sample_at 1048576 1048576) s0) in
  let s2 := snd (update_resource_usage (sample_at 3145728 2097152) s1) in
  network_io (self s1) = 0%Q /\
  network_io (self s2) =
    (inject_Z ((3145728 - 1048576) + (2097152 - 1048576)) / inject_Z (1024 * 1024))%Q.
Proof.
  split.
  - exact (update_resource_usage_network_io 1001 "cpu_miner" 2 "eth0" false []
             (sample_at 1048576 1048576)).
  - exact (update_resource_usage_network_io 1001 "cpu_miner" 2 "eth0" false
             [sample_at 1048576 1048576] (sample_at 3145728 2097152)).
Defined.

(** C5 as stated fails: a sample is not always measured against the
    previous one.  The first sample reads 1 MiB sent; during the second,
    with 2 MiB sent, psutil refuses the disk counters, so the sample
    reports 0 MB, not 1; the third, with 4 MiB sent, reports 3 MB, the
    traffic since the first sample, not the 2 MB since the previous
    one. *)
Lemma update_resource_usage_network_io_skips_failed_sample :
  let s0 := registered (MiningProcess_init 1001 "cpu_miner" 2 "eth0" false) in
  let s1 := snd (update_resource_usage (sample_at 1048576 0) s0) in
  let s2 := snd (update_resource_usage (sample_denied 2097152 0) s1) in
  let s3 := snd (update_resource_usage (sample_at 4194304 0) s2) in
  (network_io (self s2) == 0)%Q /\
  ~ (network_io (self s2) ==
     inject_Z ((2097152 - 1048576) + (0 - 0)) / inject_Z (1024 * 1024))%Q /\
  (network_io (self s3) == 3)%Q /\
  ~ (network_io (self s3) ==
     inject_Z ((4194304 - 2097152) + (0 - 0)) / inject_Z (1024 * 1024))%Q.
Proof.
  cbv zeta.
  repeat split; try (intros H; vm_compute in H; discriminate); vm_compute; reflexivity.
Qed.

(** ** C7: constructing the supervisor again *)

Lemma getattr_run addr key s :
  getattr addr key s = (Ret (heap s !! addr ≫= lookup key), s).
Proof. reflexivity. Qed.

Lemma ResourceManager_new_existing s addr :
  _instance s = Some addr -> ResourceManager_new s = (Ret addr, s).
Proof. intros Hi. unfold ResourceManager_new, bind, get. now rewrite Hi. Qed.



(** * Further properties of resource_manager.py *)

(** ** restore_resources: nothing saved, order, repetition *)

(** X1.  For a pid with no entry, or with an empty entry,
    [restore_resources] logs the "not found" warning and does nothing
    else: no adapter is entered, nothing is run, and the saved limits,
    an empty entry included, stay as they are. *)
Theorem restore_resources_nothing_saved os process w :
  original_resource_limits w !! pid process = None \/
  original_resource_limits w !! pid process = Some ∅ ->
  restore_resources os process w =
    (Ret tt, {| original_resource_limits := original_resource_limits w;
                trace := trace w ++ [ELog WARNING msg_limits_not_found] |}).
Proof.
  intros [H|H]; unfold restore_resources, try_except; unfold bind at 1;
    unfold get at 1; rewrite H; reflexivity.
Qed.

Lemma restore_resources_nothing_saved_witness :
  restore_resources host4 restore_process world0 =
    (Ret tt, {| original_resource_limits := ∅;
                trace := [] ++ [ELog WARNING msg_limits_not_found] |}).
Proof.
  exact (restore_resources_nothing_saved host4 restore_process world0 (or_introl eq_refl)).
Defined.

(** X2.  For a pid with a non-empty entry, the adapters are entered in
    the fixed order frequency, threads, RAM, GPU power, ionice, network;
    each one at most once, exactly for the knobs saved with a truthy
    value, with that value and the pid of the process.  Keys other than
    these six cause no call. *)
Theorem restore_resources_call_order os process w saved :
  original_resource_limits w !! pid process = Some saved ->
  saved <> ∅ ->
  calls (drop (length (trace w)) (trace (snd (restore_resources os process w))))
    = restored (pid process) saved /\
  NoDup (restored (pid process) saved).*1.*1.
Proof.
  intros Hsaved Hne. apply map_size_non_empty_iff in Hne.
  destruct (restore_resources_run os process w saved Hsaved Hne) as (evs & -> & Hcalls).
  split.
  - simpl. now rewrite drop_app_length.
  - unfold restored, restore_order; simpl. unfold restored_knob; simpl.
    repeat match goal with
           | |- context [match ?x with _ => _ end] =>
               lazymatch x with
               | context [match _ with _ => _ end] => fail
               | _ => destruct x; simpl
               end
           end;
      repeat (constructor; [rewrite ?elem_of_cons, ?elem_of_nil; intuition discriminate|]);
      constructor.
Qed.

Lemma restore_resources_call_order_witness :
  calls (drop (length (trace saved_ionice))
           (trace (snd (restore_resources host_ionice_fails restore_process saved_ionice))))
    = [(DiskIoPriority, 2121, PInt 2)] /\
  NoDup (restored 2121 {[ "ionice_class" := PInt 2 ]}).*1.*1.
Proof.
  apply (restore_resources_call_order host_ionice_fails restore_process saved_ionice
           {[ "ionice_class" := PInt 2 ]} eq_refl).
  intros H. apply (f_equal (lookup "ionice_class")) in H. vm_compute in H. discriminate.
Defined.

(** X3.  A restoration that goes through touches the entry of no other
    pid, and a second [restore_resources] for the same process then finds
    nothing: it only logs the "not found" warning. *)
Theorem restore_resources_twice os process w saved :
  original_resource_limits w !! pid process = Some saved ->
  saved <> ∅ ->
  let w1 := snd (restore_resources os process w) in
  (forall q, q <> pid process ->
     original_resource_limits w1 !! q = original_resource_limits w !! q) /\
  restore_resources os process w1 =
    (Ret tt, {| original_resource_limits := original_resource_limits w1;
                trace := trace w1 ++ [ELog WARNING msg_limits_not_found] |}).
Proof.
  intros Hsaved Hne w1. apply map_size_non_empty_iff in Hne.
  destruct (restore_resources_run os process w saved Hsaved Hne) as (evs & Hrun & _).
  subst w1. rewrite Hrun. cbn [snd original_resource_limits trace]. split.
  - intros q Hq. now apply lookup_delete_ne.
  - unfold restore_resources, try_except. unfold bind at 1. unfold get at 1.
    cbn [original_resource_limits]. rewrite lookup_delete_eq. reflexivity.
Qed.

Lemma restore_resources_twice_witness :
  let w1 := snd (restore_resources host4 restore_process saved_zero) in
  (forall q, q <> 2121 ->
     original_resource_limits w1 !! q = original_resource_limits saved_zero !! q) /\
  restore_resources host4 restore_process w1 =
    (Ret tt, {| original_resource_limits := original_resource_limits w1;
                trace := trace w1 ++ [ELog WARNING msg_limits_not_found] |}).
Proof.
  apply (restore_resources_twice host4 restore_process saved_zero
           {[ "ionice_class" := PInt 0; "cpu_freq" := PNone ]} eq_refl).
  intros H. apply (f_equal (lookup "ionice_class")) in H. vm_compute in H. discriminate.
Defined.

(** ** apply_cloak_strategy: what is recorded *)

Lemma record_original_run p key value w d :
  original_resource_limits w !! p = Some d ->
  record_original p key value w =
    (Ret tt, {| original_resource_limits := <[p := <[key := value]> d]> (original_resource_limits w);
                trace := trace w |}).
Proof. intros Hd. unfold record_original, bind, get, set_limits, modify. now rewrite Hd. Qed.

Lemma record_all_lookup reading adjustments entry key :
  record_all reading adjustments entry !! key =
    if bool_decide (key ∈ recorded_knobs /\ key ∈ adjustments.*1)
    then Some (reading key) else entry !! key.
Proof.
  unfold record_all. revert entry.
  induction adjustments as [|[k v] adj IH]; intros entry; simpl.
  - rewrite bool_decide_eq_false_2; [reflexivity|]. intros [_ H]. inversion H.
  - rewrite IH. destruct (decide (key ∈ recorded_knobs /\ key ∈ adj.*1)) as [H|H].
    + rewrite !bool_decide_eq_true_2; [reflexivity| |exact H].
      destruct H as [H1 H2]. split; [exact H1|]. apply elem_of_cons. now right.
    + rewrite (bool_decide_eq_false_2 _ H).
      destruct (decide (key = k)) as [->|Hk].
      * destruct (decide (k ∈ recorded_knobs)) as [Hr|Hr].
        -- rewrite (bool_decide_eq_true_2 (k ∈ recorded_knobs) Hr), lookup_insert_eq.
           rewrite bool_decide_eq_true_2; [reflexivity|].
           split; [exact Hr | apply elem_of_cons; now left].
        -- rewrite (bool_decide_eq_false_2 (k ∈ recorded_knobs) Hr).
           rewrite bool_decide_eq_false_2; [reflexivity|]. intros [H1 _]. contradiction.
      * assert (Hl : (if bool_decide (k ∈ recorded_knobs) then <[k:=reading k]> entry else entry) !! key = entry !! key).
        { destruct (bool_decide (k ∈ recorded_knobs)); [rewrite lookup_insert_ne by congruence|]; reflexivity. }
        rewrite Hl. rewrite bool_decide_eq_false_2; [reflexivity|].
        intros [H1 H2]. apply H. split; [exact H1|].
        apply elem_of_cons in H2 as [H2|H2]; [contradiction|exact H2].
Qed.

Lemma save_loop {strategy} (c : collaborators strategy) reading p adjustments :
  pure_readers c reading ->
  forall w d,
    original_resource_limits w !! p = Some d ->
    for_each adjustments (fun '(key, value) =>
      if String.eqb key "cpu_freq" then
        original_freq <- get_current_cpu_frequency c p ;;
        record_original p "cpu_freq" original_freq
      else if String.eqb key "gpu_power_limit" then
        original_power_limit <- get_current_gpu_power_limit c p ;;
        record_original p "gpu_power_limit" original_power_limit
      else if String.eqb key "network_bandwidth_limit_mbps" then
        original_bw_limit <- get_current_network_bandwidth_limit c p ;;
        record_original p "network_bandwidth_limit_mbps" original_bw_limit
      else if String.eqb key "ionice_class" then
        original_ionice_class <- get_current_ionice_class c p ;;
        record_original p "ionice_class" original_ionice_class
      else ret tt) w =
    (Ret tt, {| original_resource_limits :=
                  <[p := record_all reading adjustments d]> (original_resource_limits w);
                trace := trace w |}).
Proof.
  intros (Hf & Hg & Hn & Hi).
  induction adjustments as [|[k v] adj IH]; intros w d Hd.
  - simpl. unfold ret, record_all; simpl. rewrite (insert_id _ _ _ Hd). now destruct w.
  - cbn [for_each]. unfold bind at 1.
    assert (Hstep : forall key, key ∈ recorded_knobs ->
      k = key ->
      (Ret tt, {| original_resource_limits := <[p := <[key := reading key]> d]> (original_resource_limits w);
                  trace := trace w |}) =
      (Ret tt, {| original_resource_limits :=
                    <[p := if bool_decide (k ∈ recorded_knobs) then <[k := reading k]> d else d]>
                      (original_resource_limits w);
                  trace := trace w |})).
    { intros key Hkey ->. now rewrite bool_decide_eq_true_2. }
    set (step := if bool_decide (k ∈ recorded_knobs) then <[k := reading k]> d else d).
    assert (Hrun : (if String.eqb k "cpu_freq" then
        original_freq <- get_current_cpu_frequency c p ;;
        record_original p "cpu_freq" original_freq
      else if String.eqb k "gpu_power_limit" then
        original_power_limit <- get_current_gpu_power_limit c p ;;
        record_original p "gpu_power_limit" original_power_limit
      else if String.eqb k "network_bandwidth_limit_mbps" then
        original_bw_limit <- get_current_network_bandwidth_limit c p ;;
        record_original p "network_bandwidth_limit_mbps" original_bw_limit
      else if String.eqb k "ionice_class" then
        original_ionice_class <- get_current_ionice_class c p ;;
        record_original p "ionice_class" original_ionice_class
      else ret tt) w =
      (Ret tt, {| original_resource_limits := <[p := step]> (original_resource_limits w);
                  trace := trace w |})).
    { subst step.
      destruct (String.eqb_spec k "cpu_freq") as [->|H1].
      { rewrite Hf. unfold bind, ret. rewrite (record_original_run _ _ _ _ _ Hd).
        apply Hstep; [|reflexivity]. unfold recorded_knobs; set_solver. }
      destruct (String.eqb_spec k "gpu_power_limit") as [->|H2].
      { rewrite Hg. unfold bind, ret. rewrite (record_original_run _ _ _ _ _ Hd).
        apply Hstep; [|reflexivity]. unfold recorded_knobs; set_solver. }
      destruct (String.eqb_spec k "network_bandwidth_limit_mbps") as [->|H3].
      { rewrite Hn. unfold bind, ret. rewrite (record_original_run _ _ _ _ _ Hd).
        apply Hstep; [|reflexivity]. unfold recorded_knobs; set_solver. }
      destruct (String.eqb_spec k "ionice_class") as [->|H4].
      { rewrite Hi. unfold bind, ret. rewrite (record_original_run _ _ _ _ _ Hd).
        apply Hstep; [|reflexivity]. unfold recorded_knobs; set_solver. }
      rewrite bool_decide_eq_false_2.
      - unfold ret. rewrite (insert_id _ _ _ Hd). now destruct w.
      - unfold recorded_knobs. rewrite !elem_of_cons, elem_of_nil. intuition. }
    rewrite Hrun.
    rewrite (IH _ step) by (cbn [original_resource_limits]; apply lookup_insert_eq).
    cbn [original_resource_limits trace]. rewrite insert_insert_eq. reflexivity.
Qed.

Lemma save_originals_run {strategy} (c : collaborators strategy) reading p adjustments w :
  pure_readers c reading ->
  save_originals c p adjustments w =
    (Ret tt, {| original_resource_limits :=
                  <[p := record_all reading adjustments
                           (default ∅ (original_resource_limits w !! p))]>
                    (original_resource_limits w);
                trace := trace w |}).
Proof.
  intros Hpure. unfold save_originals. unfold bind at 1. unfold get at 1.
  destruct (original_resource_limits w !! p) as [d|] eqn:Hd.
  - rewrite bool_decide_eq_false_2 by discriminate.
    unfold when. unfold bind at 1. unfold ret at 1.
    now rewrite (save_loop c reading p adjustments Hpure w d Hd).
  - rewrite bool_decide_eq_true_2 by reflexivity.
    unfold when. unfold bind at 1. unfold set_limits, modify.
    rewrite (save_loop c reading p adjustments Hpure _ ∅)
      by (cbn [original_resource_limits]; apply lookup_insert_eq).
    cbn [original_resource_limits trace default]. now rewrite insert_insert_eq.
Qed.

(** X4.  With readers that only answer, the recording step of
    [apply_cloak_strategy] returns normally, logs nothing and leaves the
    entries of other pids alone.  In the entry of the pid, a knob holds
    the current reading exactly when it is one of the four recorded knobs
    and a key of the adjustments; any other key, [cpu_threads] and
    [ram_allocation_mb] included, keeps what was saved before, if
    anything. *)
Theorem save_originals_records {strategy} (c : collaborators strategy) reading p
    adjustments w :
  pure_readers c reading ->
  let w' := snd (save_originals c p adjustments w) in
  fst (save_originals c p adjustments w) = Ret tt /\
  trace w' = trace w /\
  (forall key, saved_value w' p key =
     if bool_decide (key ∈ recorded_knobs /\ key ∈ adjustments.*1)
     then Some (reading key)
     else saved_value w p key) /\
  (forall q, q <> p -> original_resource_limits w' !! q = original_resource_limits w !! q).
Proof.
  intros Hpure w'. subst w'. rewrite (save_originals_run c reading p adjustments w Hpure).
  cbn [fst snd trace original_resource_limits]. repeat split.
  - intros key. unfold saved_value. cbn [original_resource_limits].
    rewrite lookup_insert_eq. cbn [mbind option_bind]. rewrite record_all_lookup.
    destruct (bool_decide _); [reflexivity|].
    now destruct (original_resource_limits w !! p).
  - intros q Hq. now apply lookup_insert_ne.
Qed.

Lemma save_originals_records_witness :
  let w' := snd (save_originals (collaborators_at host4 3000) 1001
                   [("cpu_freq", PInt 2500); ("cpu_threads", PInt 2)] world0) in
  saved_value w' 1001 "cpu_freq" = Some (PInt 3000) /\
  saved_value w' 1001 "cpu_threads" = None.
Proof.
  destruct (save_originals_records (collaborators_at host4 3000) reading_3000 1001
              [("cpu_freq", PInt 2500); ("cpu_threads", PInt 2)] world0)
    as (_ & _ & Hsaved & _).
  - repeat split.
  - split; [exact (Hsaved "cpu_freq") | exact (Hsaved "cpu_threads")].
Defined.

Lemma record_all_unrecorded reading adjustments entry :
  (forall key, key ∈ adjustments.*1 -> key ∉ recorded_knobs) ->
  record_all reading adjustments entry = entry.
Proof.
  intros H. apply map_eq. intros key. rewrite record_all_lookup.
  rewrite bool_decide_eq_false_2; [reflexivity|]. intros [H1 H2]. now apply (H key).
Qed.

(** X5.  When none of the keys of the adjustments is a recorded knob (a
    cache strategy, say, whose only key is [drop_caches]), the recording
    step leaves a pid that had no entry with an empty one; and
    [restore_resources] then only logs "not found": the empty entry is
    not removed. *)
Theorem cloak_of_unrecorded_knobs_leaves_entry {strategy} (c : collaborators strategy)
    reading os process adjustments w :
  pure_readers c reading ->
  original_resource_limits w !! pid process = None ->
  (forall key, key ∈ adjustments.*1 -> key ∉ recorded_knobs) ->
  let w1 := snd (save_originals c (pid process) adjustments w) in
  original_resource_limits w1 !! pid process = Some ∅ /\
  restore_resources os process w1 =
    (Ret tt, {| original_resource_limits := original_resource_limits w1;
                trace := trace w1 ++ [ELog WARNING msg_limits_not_found] |}).
Proof.
  intros Hpure Hnone Hkeys w1.
  assert (Hentry : original_resource_limits w1 !! pid process = Some ∅).
  { subst w1. rewrite (save_originals_run c reading _ adjustments w Hpure).
    cbn [snd original_resource_limits]. rewrite lookup_insert_eq, Hnone.
    cbn [default]. now rewrite record_all_unrecorded. }
  split; [exact Hentry|].
  unfold restore_resources, try_except. unfold bind at 1. unfold get at 1.
  rewrite Hentry. reflexivity.
Qed.

Lemma cloak_of_unrecorded_knobs_leaves_entry_witness :
  let w1 := snd (save_originals (collaborators_at host4 3000) 1001
                   [("drop_caches", PInt 1)] world0) in
  original_resource_limits w1 !! 1001 = Some ∅ /\
  restore_resources host4 cpu_miner w1 =
    (Ret tt, {| original_resource_limits := original_resource_limits w1;
                trace := trace w1 ++ [ELog WARNING msg_limits_not_found] |}).
Proof.
  apply (cloak_of_unrecorded_knobs_leaves_entry (collaborators_at host4 3000) reading_3000
           host4 cpu_miner [("drop_caches", PInt 1)] world0).
  - repeat split.
  - reflexivity.
  - intros key Hin Hrec. cbn in Hin. unfold recorded_knobs in Hrec.
    rewrite elem_of_cons, elem_of_nil in Hin. destruct Hin as [->|[]].
    rewrite !elem_of_cons, elem_of_nil in Hrec. intuition discriminate.
Defined.

(** ** apply_cloak_strategy: how it ends *)

(** X6.  [apply_cloak_strategy] never fails silently.  Whatever the
    collaborators do, when it raises, the last thing it did was to log:
    an ERROR record, or the "not created" WARNING, in which case what it
    raises is [RuntimeError]. *)
Theorem apply_cloak_strategy_logs_before_raising {strategy} cfg (c : collaborators strategy)
    strategy_name process w e :
  raised (fst (apply_cloak_strategy cfg c strategy_name process w)) = Some e ->
  exists evs l msg,
    trace (snd (apply_cloak_strategy cfg c strategy_name process w)) = evs ++ [ELog l msg] /\
    (l = ERROR \/ (l = WARNING /\ e = RuntimeError)).
Proof.
  destruct (apply_cloak_strategy cfg c strategy_name process w) as [r w'] eqn:E.
  cbn [fst snd]. revert E. unfold apply_cloak_strategy.
  unfold bind at 1. unfold try_except at 1.
  destruct ((log DEBUG _ ;; gpu <- is_gpu_initialized c ;; create_strategy c strategy_name cfg gpu) w)
    as [[st|e0] w1].
  - destruct st as [st|].
    + unfold try_except.
      destruct ((adjustments <- strategy_apply c st process ;; _) w1) as [[[]|e1] w2].
      * intros [= <- <-]. discriminate.
      * run_monad. intros [= <- <-] [= <-]. eexists _, _, _. split; [reflexivity|]. now left.
    + run_monad. intros [= <- <-] [= <-]. eexists _, _, _. split; [reflexivity|]. now right.
  - run_monad. intros [= <- <-] [= <-]. eexists _, _, _. split; [reflexivity|]. now left.
Qed.

Lemma apply_cloak_strategy_logs_before_raising_witness :
  exists evs l msg,
    trace (snd (apply_cloak_strategy default_config no_strategy "unknown" cpu_miner world0))
      = evs ++ [ELog l msg] /\
    (l = ERROR \/ (l = WARNING /\ RuntimeError = RuntimeError)).
Proof.
  exact (apply_cloak_strategy_logs_before_raising default_config no_strategy "unknown"
           cpu_miner world0 RuntimeError eq_refl).
Defined.

(** ** The adapters, one by one *)

Ltac close_quiet :=
  first
    [ eexists; split; [rewrite <- ?app_assoc; simpl; reflexivity | reflexivity]
    | exists []; split;
      [match goal with w : world |- _ => destruct w; simpl; now rewrite app_nil_r end
      | reflexivity] ].

Lemma assign_process_resources_without_threads os p resources process_name w :
  resources !! "cpu_threads" = None ->
  exists evs,
    effect (assign_process_resources os p resources process_name) w tt evs /\
    externals evs = [].
Proof.
  intros H. unfold assign_process_resources. rewrite H. run_monad.
  split_answers; close_quiet.
Qed.

Lemma throttle_cpu_based_on_load_eq os process load q :
  as_Q load = Some q ->
  throttle_cpu_based_on_load os process load =
    try_except
      (adjust_cpu_frequency os (pid process) (PInt (throttle_frequency q)) (name process) ;;
       log INFO "Adjusted CPU frequency to {new_freq}MHz for process {process.name} (PID: {process.pid}) based on load {load_percent}%.")
      (fun e => log ERROR "Error adjusting CPU frequency based on load for process {process.name} (PID: {process.pid}): {e}").
Proof.
  intros H. unfold throttle_cpu_based_on_load, py_gt, throttle_frequency. rewrite H.
  cbn [as_Q]. destruct (Qlt_bool (inject_Z 80) q); [reflexivity|].
  destruct (Qlt_bool (inject_Z 50) q); reflexivity.
Qed.

(** X7.  The frequency and RAM knobs are log-only: for every host, pid
    and value, [adjust_cpu_frequency], [adjust_ram_allocation] and
    [throttle_cpu_based_on_load] return normally, keep the saved limits,
    and run no command and make no SDK call. *)
Theorem log_only_knobs os process p v load process_name w :
  (exists evs, effect (adjust_cpu_frequency os p v process_name) w tt evs /\
               externals evs = []) /\
  (exists evs, effect (adjust_ram_allocation os p v process_name) w tt evs /\
               externals evs = []) /\
  (exists evs, effect (throttle_cpu_based_on_load os process load) w tt evs /\
               externals evs = []).
Proof.
  assert (Hfreq : forall p v process_name w,
    exists evs, effect (adjust_cpu_frequency os p v process_name) w tt evs /\
                externals evs = []).
  { clear. intros p v process_name w.
    destruct (assign_process_resources_without_threads os p {[ "cpu_freq" := v ]}
                process_name (after w [ECall CpuFrequency p v])) as (evs & He & Hq);
      [now rewrite lookup_singleton_ne|].
    eexists. split.
    - unfold adjust_cpu_frequency.
      apply (effect_bind _ _ _ tt tt [ECall CpuFrequency p v]); [apply effect_emit|].
      apply effect_try. eapply effect_bind; [exact He | apply effect_log].
    - unfold externals in *. cbn [List.filter is_external app].
      now rewrite List.filter_app, Hq. }
  split; [apply Hfreq|]. split.
  - destruct (assign_process_resources_without_threads os p {[ "memory" := v ]}
                process_name (after w [ECall RamAllocation p v])) as (evs & He & Hq);
      [now rewrite lookup_singleton_ne|].
    eexists. split.
    + unfold adjust_ram_allocation.
      apply (effect_bind _ _ _ tt tt [ECall RamAllocation p v]); [apply effect_emit|].
      apply effect_try. eapply effect_bind; [exact He | apply effect_log].
    + unfold externals in *. cbn [List.filter is_external app].
      now rewrite List.filter_app, Hq.
  - destruct (as_Q load) as [q|] eqn:Hload.
    2:{ unfold throttle_cpu_based_on_load, py_gt. rewrite Hload. run_monad. close_quiet. }
    rewrite (throttle_cpu_based_on_load_eq os process load q Hload).
    destruct (Hfreq (pid process) (PInt (throttle_frequency q)) (name process) w)
      as (evs & He & Hq).
    eexists. split.
    + apply effect_try. eapply effect_bind; [exact He | apply effect_log].
    + unfold externals in *. now rewrite List.filter_app, Hq.
Qed.

Lemma throttle_frequency_antitone (l1 l2 : Q) :
  (l1 <= l2)%Q -> throttle_frequency l2 <= throttle_frequency l1.
Proof.
  intros Hle. unfold throttle_frequency.
  destruct (Qlt_bool (inject_Z 80) l1) eqn:H1, (Qlt_bool (inject_Z 80) l2) eqn:H2,
    (Qlt_bool (inject_Z 50) l1) eqn:H3, (Qlt_bool (inject_Z 50) l2) eqn:H4; try lia;
    repeat match goal with
           | H : Qlt_bool _ _ = true |- _ => apply Qlt_bool_iff in H
           | H : Qlt_bool _ _ = false |- _ => apply Qlt_bool_false_iff in H
           end;
    exfalso; unfold inject_Z in *; lra.
Qed.

(** X8.  [throttle_cpu_based_on_load] enters [adjust_cpu_frequency] once,
    with one of 2000, 2500 and 3000 MHz, and a higher load never gets a
    higher frequency than a lower one. *)
Theorem throttle_cpu_based_on_load_antitone os process (l1 l2 : Q) w :
  (l1 <= l2)%Q ->
  exists f1 f2,
    calls (drop (length (trace w))
             (trace (snd (throttle_cpu_based_on_load os process (PFloat l1) w))))
      = [(CpuFrequency, pid process, PInt f1)] /\
    calls (drop (length (trace w))
             (trace (snd (throttle_cpu_based_on_load os process (PFloat l2) w))))
      = [(CpuFrequency, pid process, PInt f2)] /\
    f2 <= f1 /\ f1 ∈ [2000; 2500; 3000] /\ f2 ∈ [2000; 2500; 3000].
Proof.
  intros Hle.
  assert (Hrun : forall l,
    calls (drop (length (trace w))
             (trace (snd (throttle_cpu_based_on_load os process (PFloat l) w))))
      = [(CpuFrequency, pid process, PInt (throttle_frequency l))]).
  { intros l. rewrite (throttle_cpu_based_on_load_eq os process (PFloat l) l eq_refl).
    destruct (Runs_adjust_cpu_frequency os (pid process) (PInt (throttle_frequency l))
                (name process) w) as (evs & He & Hc).
    assert (Heff : effect
      (try_except
         (adjust_cpu_frequency os (pid process) (PInt (throttle_frequency l)) (name process) ;;
          log INFO "Adjusted CPU frequency to {new_freq}MHz for process {process.name} (PID: {process.pid}) based on load {load_percent}%.")
         (fun e => log ERROR "Error adjusting CPU frequency based on load for process {process.name} (PID: {process.pid}): {e}"))
      w tt (evs ++ [ELog INFO "Adjusted CPU frequency to {new_freq}MHz for process {process.name} (PID: {process.pid}) based on load {load_percent}%."])).
    { apply effect_try. eapply effect_bind; [exact He | apply effect_log]. }
    unfold effect in Heff. rewrite Heff. cbn [snd trace].
    rewrite drop_app_length, calls_app, Hc. reflexivity. }
  exists (throttle_frequency l1), (throttle_frequency l2).
  split; [apply Hrun|]. split; [apply Hrun|].
  split; [now apply throttle_frequency_antitone|].
  split; unfold throttle_frequency;
    repeat match goal with |- context [if ?b then _ else _] => destruct b end;
    rewrite !elem_of_cons; auto.
Qed.

Lemma throttle_cpu_based_on_load_antitone_witness :
  exists f1 f2,
    calls (drop (length (trace world0))
             (trace (snd (throttle_cpu_based_on_load host4 cpu_miner (PFloat 40) world0))))
      = [(CpuFrequency, 1001, PInt f1)] /\
    calls (drop (length (trace world0))
             (trace (snd (throttle_cpu_based_on_load host4 cpu_miner (PFloat 90) world0))))
      = [(CpuFrequency, 1001, PInt f2)] /\
    f2 <= f1 /\ f1 ∈ [2000; 2500; 3000] /\ f2 ∈ [2000; 2500; 3000].
Proof.
  apply (throttle_cpu_based_on_load_antitone host4 cpu_miner 40 90 world0).
  unfold Qle; simpl; lia.
Defined.

(** X9.  [adjust_disk_io_priority] runs exactly one command, ionice with
    the class and the pid it was given, and returns normally whether the
    command succeeds or fails; it makes no other command or SDK call. *)
Theorem adjust_disk_io_priority_one_command os p ionice_class process_name w :
  exists evs,
    adjust_disk_io_priority os p ionice_class process_name w =
      (Ret tt, {| original_resource_limits := original_resource_limits w;
                  trace := trace w ++ evs |}) /\
    externals evs = [EIonice ionice_class p].
Proof.
  unfold adjust_disk_io_priority. run_monad.
  destruct (os_ionice os ionice_class p) as [[]|]; simpl;
    (eexists; split; [rewrite <- ?app_assoc; simpl; reflexivity | reflexivity]).
Qed.

(** X10.  [adjust_gpu_usage] without the [optimization_parameters]
    section: for a non-empty vector the setter is never called, the
    [KeyError] is logged as an ERROR and the method returns normally; for
    the empty vector the section is not even looked up and the setter is
    called with the empty vector. *)
Theorem adjust_gpu_usage_without_section os cfg process (v : list pynum) w :
  optimization_parameters cfg = None ->
  fst (adjust_gpu_usage os cfg process v w) = Ret tt /\
  setter_calls (drop (length (trace w)) (trace (snd (adjust_gpu_usage os cfg process v w))))
    = match v with
      | [] => [(pid process, [])]
      | _ :: _ => []
      end.
Proof.
  intros Hcfg. unfold adjust_gpu_usage. destruct v as [|x v].
  - run_monad. destruct (os_set_gpu_usage os (pid process) []); simpl;
      rewrite <- ?app_assoc, drop_app_length; split; reflexivity.
  - cbn [comprehension]. rewrite Hcfg. run_monad.
    rewrite drop_app_length. split; reflexivity.
Qed.

Lemma adjust_gpu_usage_without_section_witness :
  fst (adjust_gpu_usage host4 config_a gpu_miner [NFloat (float_of_Z 50)] world0) = Ret tt /\
  setter_calls (drop (length (trace world0))
                  (trace (snd (adjust_gpu_usage host4 config_a gpu_miner [NFloat (float_of_Z 50)] world0))))
    = [].
Proof.
  exact (adjust_gpu_usage_without_section host4 config_a gpu_miner [NFloat (float_of_Z 50)] world0
           eq_refl).
Defined.

(** X11.  When the SDK refuses the new power limit,
    [adjust_gpu_power_limit] stops there: the calls made are init, get
    handle 0 and the refused set, and shutdown is not called; the method
    still returns [None] normally. *)
Theorem adjust_gpu_power_limit_refused os (p W : Z) process_name w h e :
  os_nvmlInit os = None ->
  os_nvmlDeviceGetHandleByIndex os 0 = Ret h ->
  os_nvmlDeviceSetPowerManagementLimit os h (PInt (W * 1000)) = Some e ->
  fst (adjust_gpu_power_limit os p (PInt W) process_name w) = Ret PNone /\
  sdk_calls (drop (length (trace w))
               (trace (snd (adjust_gpu_power_limit os p (PInt W) process_name w))))
    = [ENvmlInit; ENvmlDeviceGetHandleByIndex 0;
       ENvmlDeviceSetPowerManagementLimit h (PInt (W * 1000))].
Proof.
  intros Hinit Hh Hset. unfold adjust_gpu_power_limit. run_monad.
  rewrite Hinit; simpl. rewrite Hh; simpl. rewrite Hset; simpl.
  rewrite <- !app_assoc, drop_app_length. split; reflexivity.
Qed.

Lemma adjust_gpu_power_limit_refused_witness :
  fst (adjust_gpu_power_limit host_refuses_power_limit 1515 (PInt 200) "gpu" world0)
    = Ret PNone /\
  sdk_calls (drop (length (trace world0))
               (trace (snd (adjust_gpu_power_limit host_refuses_power_limit 1515 (PInt 200)
                              "gpu" world0))))
    = [ENvmlInit; ENvmlDeviceGetHandleByIndex 0;
       ENvmlDeviceSetPowerManagementLimit 0 (PInt (200 * 1000))].
Proof.
  exact (adjust_gpu_power_limit_refused host_refuses_power_limit 1515 200 "gpu" world0
           0 NVMLError eq_refl eq_refl eq_refl).
Defined.

(** X12.  taskset is only ever run for an integer thread count on a host
    whose core count is known: when the count handed to
    [adjust_cpu_threads] is [None] or a float, or psutil cannot tell the
    number of cores, no command is run and the method returns
    normally. *)
Theorem adjust_cpu_threads_needs_integers os p v process_name w :
  (forall n, v <> PInt n) \/ os_cpu_count os = PNone ->
  fst (adjust_cpu_threads os p v process_name w) = Ret tt /\
  tasksets (drop (length (trace w)) (trace (snd (adjust_cpu_threads os p v process_name w))))
    = [].
Proof.
  intros H. unfold adjust_cpu_threads, assign_process_resources.
  rewrite lookup_singleton_eq, !lookup_singleton_ne by done.
  unfold py_gt, py_le, py_range. run_monad.
  destruct H as [H|H].
  - destruct v as [|n|q]; [|now destruct (H n)|]; cbn [as_Q].
    + simpl. rewrite <- !app_assoc, drop_app_length. split; reflexivity.
    + destruct (as_Q (os_cpu_count os)); simpl.
      * destruct (Qlt_bool _ _); simpl; [|destruct (Qle_bool _ _); simpl];
          rewrite <- !app_assoc, drop_app_length; split; reflexivity.
      * rewrite <- !app_assoc, drop_app_length; split; reflexivity.
  - rewrite H. cbn [as_Q]. destruct (as_Q v); simpl;
      rewrite <- !app_assoc, drop_app_length; split; reflexivity.
Qed.

Lemma adjust_cpu_threads_needs_integers_witness :
  fst (adjust_cpu_threads host4 1001 PNone "cpu_miner" world0) = Ret tt /\
  tasksets (drop (length (trace world0))
              (trace (snd (adjust_cpu_threads host4 1001 PNone "cpu_miner" world0))))
    = [].
Proof.
  apply (adjust_cpu_threads_needs_integers host4 1001 PNone "cpu_miner" world0).
  left. discriminate.
Defined.

(** * Further properties of utils.py *)

(** ** The retry decorator *)

Lemma retry_loop_exhausts {St A} checked (warn : M St unit) (f : M St A) :
  (forall s, exists e, fst (f s) = Raise e /\ checked e = true) ->
  (forall s, fst (warn s) = Ret tt) ->
  forall n s, retry_loop checked warn n f s = f (Nat.iter n (attempt_and_warn warn f) s).
Proof.
  intros Hf Hw n. induction n as [|n IH]; intros s; [reflexivity|].
  rewrite Nat.iter_succ_r. rewrite <- IH. cbn [retry_loop]. unfold try_except.
  destruct (Hf s) as (e & He & Hc). unfold attempt_and_warn.
  destruct (f s) as [r s1]; cbn [fst snd] in *. subst r. rewrite Hc.
  unfold bind. specialize (Hw s1). destruct (warn s1) as [rw s2]; cbn [fst snd] in *.
  now subst rw.
Qed.

(** X14.  A function that keeps raising the checked exception is run
    exactly [max tries 1] times by [retry]: [tries - 1] attempts, each
    followed by a warning, and one last attempt whose exception goes to
    the caller.  In particular [tries = 0] still makes one attempt. *)
Theorem retry_exhausts {St A} checked (warn : M St unit) (tries : nat) (f : M St A) :
  (forall s, exists e, fst (f s) = Raise e /\ checked e = true) ->
  (forall s, fst (warn s) = Ret tt) ->
  forall s,
    retry checked warn tries f s = f (Nat.iter (tries - 1) (attempt_and_warn warn f) s) /\
    retry checked warn 0 f s = f s.
Proof.
  intros Hf Hw s. split; [|reflexivity]. unfold retry. now apply retry_loop_exhausts.
Qed.

Lemma retry_exhausts_witness :
  retry is_NVMLError (ret tt) 3 failing_attempt 0%nat = (Raise NVMLError, 3%nat).
Proof.
  refine (proj1 (retry_exhausts is_NVMLError (ret tt) 3 failing_attempt _ _ 0%nat)).
  - intros s. exists NVMLError. split; reflexivity.
  - reflexivity.
Defined.

(** X15.  [retry] stays out of the way: an attempt that returns is not
    repeated, and an exception that is not the checked one goes to the
    caller after that single attempt; in both cases nothing is logged by
    the decorator. *)
Theorem retry_passes_through {St A} checked (warn : M St unit) (tries : nat) (f : M St A)
    s r s' :
  f s = (r, s') ->
  (forall e, r = Raise e -> checked e = false) ->
  retry checked warn tries f s = (r, s').
Proof.
  intros Hf Hr. unfold retry. destruct (tries - 1)%nat as [|n]; [exact Hf|].
  cbn [retry_loop]. unfold try_except. rewrite Hf.
  destruct r as [a|e]; [reflexivity|]. now rewrite (Hr e eq_refl).
Qed.

Lemma retry_passes_through_witness :
  retry is_NVMLError (ret tt) 3 type_error_attempt 0%nat = (Raise TypeError, 1%nat).
Proof.
  apply (retry_passes_through is_NVMLError (ret tt) 3 type_error_attempt 0%nat
           (Raise TypeError) 1%nat eq_refl).
  intros e [= <-]. reflexivity.
Defined.

(** ** The GPU memory readings *)

Lemma memory_sum_stops env field (before after_ : list nat) i e acc :
  (forall j, j ∈ before -> exists m, gm_memory_info env (Z.of_nat j) = Ret m) ->
  gm_memory_info env (Z.of_nat i) = Raise e ->
  memory_sum env field (before ++ i :: after_) acc = Raise e.
Proof.
  revert acc. induction before as [|j before IH]; intros acc Hb Hi.
  - cbn. now rewrite Hi.
  - cbn. destruct (Hb j) as (m & ->); [apply elem_of_cons; now left|].
    apply IH; [|exact Hi]. intros k Hk. apply Hb. apply elem_of_cons. now right.
Qed.

(** X16.  One device that answers with [NVMLError] voids the whole
    reading: [get_total_gpu_memory] and [get_used_gpu_memory] then return
    0, not the sum over the devices read so far, and log one ERROR. *)
Theorem gpu_memory_reading_voided env s (i : nat) :
  gm_gpu_initialized env = true ->
  (i < gm_gpu_count env)%nat ->
  (forall j, (j < i)%nat -> exists m, gm_memory_info env (Z.of_nat j) = Ret m) ->
  gm_memory_info env (Z.of_nat i) = Raise NVMLError ->
  get_total_gpu_memory env s =
    (Ret 0%Q, logged s ERROR "Error getting total GPU memory: {e}") /\
  get_used_gpu_memory env s =
    (Ret 0%Q, logged s ERROR "Error getting used GPU memory: {e}").
Proof.
  intros Hinit Hi Hbefore Hraise.
  assert (Hsum : forall field,
    memory_sum env field (seq 0 (gm_gpu_count env)) 0%Q = Raise NVMLError).
  { intros field.
    replace (gm_gpu_count env) with (i + S (gm_gpu_count env - S i))%nat by lia.
    rewrite seq_app. cbn [seq]. apply memory_sum_stops; [|exact Hraise].
    intros j Hj. apply Hbefore. apply elem_of_seq in Hj. lia. }
  unfold get_total_gpu_memory, get_used_gpu_memory.
  rewrite !sum_memory_eq, Hinit, !Hsum. split; reflexivity.
Qed.

Lemma gpu_memory_reading_voided_witness :
  get_total_gpu_memory second_device_fails (registered gpu_miner) =
    (Ret 0%Q, logged (registered gpu_miner) ERROR "Error getting total GPU memory: {e}") /\
  get_used_gpu_memory second_device_fails (registered gpu_miner) =
    (Ret 0%Q, logged (registered gpu_miner) ERROR "Error getting used GPU memory: {e}").
Proof.
  apply (gpu_memory_reading_voided second_device_fails (registered gpu_miner) 1).
  - reflexivity.
  - cbn. lia.
  - intros j Hj. assert (j = 0%nat) as -> by lia. now eexists.
  - reflexivity.
Defined.

Lemma memory_sum_bounds env (l : list nat) (a b t u : Q) :
  (forall i m, gm_memory_info env i = Ret m -> 0 <= snd m <= fst m) ->
  (0 <= b <= a)%Q ->
  memory_sum env fst l a = Ret t ->
  memory_sum env snd l b = Ret u ->
  (0 <= u <= t)%Q.
Proof.
  intros Hdev. revert a b. induction l as [|i l IH]; intros a b Hab; cbn.
  - intros [= <-] [= <-]. exact Hab.
  - destruct (gm_memory_info env (Z.of_nat i)) as [[mt mu]|e] eqn:Hi; [|discriminate].
    apply IH. specialize (Hdev _ _ Hi). cbn [fst snd] in *.
    assert (0 <= inject_Z mu / MiB <= inject_Z mt / MiB)%Q.
    { unfold MiB. split.
      - apply Qle_shift_div_l; [reflexivity|]. rewrite Qmult_0_l.
        unfold Qle; simpl; lia.
      - apply Qmult_le_compat_r; [rewrite <- Zle_Qle; lia|]. discriminate. }
    lra.
Qed.

Lemma percent_bounds (u t : Q) :
  (0 <= u <= t)%Q -> ~ (t == 0)%Q -> (0 <= u / t * 100 <= 100)%Q.
Proof.
  intros [Hu Hut] Ht. assert (0 < t)%Q by (apply Qle_lteq in Hu; lra).
  assert (0 <= u / t <= 1)%Q.
  { split.
    - apply Qle_shift_div_l; [assumption|]. lra.
    - apply Qle_shift_div_r; [assumption|]. lra. }
  lra.
Qed.

(** X17.  On a host whose devices never report more used than total
    memory, nor a negative amount, the GPU usage [get_gpu_usage] returns
    is a percentage: it lies between 0 and 100, on every path, failed
    readings included. *)
Theorem get_gpu_usage_is_a_percentage env s :
  (forall i m, gm_memory_info env i = Ret m -> 0 <= snd m <= fst m) ->
  exists q s', get_gpu_usage env s = (Ret q, s') /\ (0 <= q <= 100)%Q.
Proof.
  intros Hdev. rewrite get_gpu_usage_undecorated, get_gpu_usage_body_eq.
  unfold get_total_gpu_memory, get_used_gpu_memory. rewrite sum_memory_eq.
  destruct (gm_gpu_initialized env) eqn:Hinit; cbn [negb].
  2:{ eexists _, _. split; [reflexivity|]. lra. }
  destruct (memory_sum env fst _ _) as [t|e1] eqn:Ht.
  - rewrite sum_memory_eq, Hinit; cbn [negb].
    destruct (memory_sum env snd _ _) as [u|e2] eqn:Hu.
    + eexists _, _. split; [reflexivity|].
      destruct (Qeq_bool t 0) eqn:Hz; [lra|].
      apply percent_bounds.
      * eapply memory_sum_bounds; [exact Hdev| |exact Ht|exact Hu]. lra.
      * intros H. apply Qeq_bool_iff in H. congruence.
    + destruct (is_NVMLError e2).
      * eexists _, _. split; [reflexivity|].
        destruct (Qeq_bool t 0); [lra|].
        assert (H0 : (0 / t * 100 == 0)%Q)
          by (unfold Qdiv; rewrite !Qmult_0_l; reflexivity).
        rewrite H0. lra.
      * eexists _, _. split; [reflexivity|]. lra.
  - destruct (is_NVMLError e1).
    + rewrite sum_memory_eq, Hinit; cbn [negb].
      destruct (memory_sum env snd _ _) as [u|e2]; [|destruct (is_NVMLError e2)];
        (eexists _, _; split; [reflexivity|]);
        try change (Qeq_bool 0 0) with true; cbv beta iota; lra.
    + eexists _, _. split; [reflexivity|]. lra.
Qed.

Lemma get_gpu_usage_is_a_percentage_witness :
  exists q s',
    get_gpu_usage (sample_at 0 0) (registered gpu_miner) = (Ret q, s') /\ (0 <= q <= 100)%Q.
Proof.
  apply (get_gpu_usage_is_a_percentage (sample_at 0 0) (registered gpu_miner)).
  intros i m [= <-]. cbn. lia.
Defined.

(** ** One sample, again *)

(** X18.  A sample never changes who the process is: pid, name, priority,
    mark, interface, cloak flag and GPU flag are the same after
    [update_resource_usage], whatever psutil and the devices answer. *)
Theorem update_resource_usage_keeps_identity env s :
  identity (self (snd (update_resource_usage env s))) = identity (self s).
Proof. apply sample_keeps_identity. Qed.

Lemma update_resource_usage_misses env s :
  misses env (network_interface (self s)) ->
  network_io (self (snd (update_resource_usage env s))) = 0%Q /\
  baseline (self (snd (update_resource_usage env s))) = baseline (self s).
Proof.
  intros Hmiss. unfold misses in Hmiss. run_sample.
  destruct (ps_process env) as [e|]; simpl; [now destruct e|].
  destruct (ps_cpu_percent env) as [cpu|e]; simpl; [|now destruct e].
  destruct (ps_memory_percent env) as [mem|e]; simpl; [|now destruct e].
  destruct (ps_io_counters env) as [io|e]; simpl; [|now destruct e].
  destruct (ps_net_io_counters env) as [net_io|e]; simpl; [|now destruct e].
  destruct Hmiss as [(e & H)|[(e & H)|[(e & H)|[(e & H)|[(e & H)|(n & H & Hi)]]]]];
    try discriminate.
  injection H as <-. rewrite Hi. simpl.
  destruct (gpu_initialized (self s) && _); simpl;
    [run_gpu_reading env; split; reflexivity | split; reflexivity].
Qed.

(** X19.  When the process has vanished ([psutil.Process] raises
    [NoSuchProcess]) the sample sets the five metrics to 0, logs that the
    process does not exist, and changes nothing else: identity and
    network baseline stay. *)
Theorem update_resource_usage_process_gone env s :
  ps_process env = Some NoSuchProcess ->
  update_resource_usage env s =
    (Ret tt, {| self := zero_metrics (self s);
                ulog := ulog s ++ [ELog ERROR "Process {self.name} (PID: {self.pid}) does not exist."] |}) /\
  baseline (zero_metrics (self s)) = baseline (self s) /\
  identity (zero_metrics (self s)) = identity (self s).
Proof.
  intros H. run_sample. rewrite H. repeat split.
Qed.

Lemma update_resource_usage_process_gone_witness :
  update_resource_usage sample_gone (registered gpu_miner) =
    (Ret tt, {| self := zero_metrics gpu_miner;
                ulog := [] ++ [ELog ERROR "Process {self.name} (PID: {self.pid}) does not exist."] |}).
Proof.
  exact (proj1 (update_resource_usage_process_gone sample_gone (registered gpu_miner) eq_refl)).
Defined.

(** X20.  A sample that misses the interface counters (a psutil call
    raised, or the interface was not listed) reports 0 MB and leaves the
    baseline alone; so the next sample that reads the counters reports the
    traffic since the last sample that did read them, the missed interval
    included. *)
Theorem update_resource_usage_baseline_survives env1 env2 env3 s
    sent1 recv1 sent3 recv3 :
  reads env1 (network_interface (self s)) sent1 recv1 ->
  misses env2 (network_interface (self s)) ->
  reads env3 (network_interface (self s)) sent3 recv3 ->
  let s1 := snd (update_resource_usage env1 s) in
  let s2 := snd (update_resource_usage env2 s1) in
  let s3 := snd (update_resource_usage env3 s2) in
  network_io (self s2) = 0%Q /\
  network_io (self s3) = (inject_Z ((sent3 - sent1) + (recv3 - recv1)) / MiB)%Q.
Proof.
  intros H1 H2 H3 s1 s2 s3.
  destruct (update_resource_usage_reads env1 s sent1 recv1 H1)
    as (cpu1 & mem1 & dio1 & g1 & E1 & _). fold s1 in E1.
  assert (Hi1 : network_interface (self s1) = network_interface (self s)) by now rewrite E1.
  assert (Hb1 : baseline (self s1) = (Some sent1, Some recv1)) by now rewrite E1.
  rewrite <- Hi1 in H2.
  destruct (update_resource_usage_misses env2 s1 H2) as [Hz Hb2]. fold s2 in Hz, Hb2.
  split; [exact Hz|].
  pose proof (sample_keeps_identity env2 s1) as Hid. fold s2 in Hid.
  assert (Hi2 : network_interface (self s2) = network_interface (self s)).
  { unfold identity in Hid. injection Hid as _ _ _ _ Hn _ _. congruence. }
  rewrite <- Hi2 in H3.
  destruct (update_resource_usage_reads env3 s2 sent3 recv3 H3)
    as (cpu3 & mem3 & dio3 & g3 & E3 & _). fold s3 in E3.
  rewrite Hb1 in Hb2. unfold baseline in Hb2. injection Hb2 as Hs Hr.
  rewrite E3, Hs, Hr. reflexivity.
Qed.

Lemma update_resource_usage_baseline_survives_witness :
  let s0 := registered (MiningProcess_init 1001 "cpu_miner" 2 "eth0" false) in
  let s1 := snd (update_resource_usage (sample_at 1048576 0) s0) in
  let s2 := snd (update_resource_usage sample_without_interface s1) in
  let s3 := snd (update_resource_usage (sample_at 4194304 0) s2) in
  network_io (self s2) = 0%Q /\
  network_io (self s3) = (inject_Z ((4194304 - 1048576) + (0 - 0)) / MiB)%Q.
Proof.
  apply (update_resource_usage_baseline_survives
           (sample_at 1048576 0) sample_without_interface (sample_at 4194304 0)
           (registered (MiningProcess_init 1001 "cpu_miner" 2 "eth0" false))
           1048576 0 4194304 0).
  - split; [reflexivity|]. repeat split; eexists; try split; reflexivity.
  - do 5 right. exists ∅. split; reflexivity.
  - split; [reflexivity|]. repeat split; eexists; try split; reflexivity.
Defined.

(** X21.  [reset_network_io] forgets the baseline: it sets the network
    I/O to 0 and the sample that follows reports 0 MB again, whatever the
    counters say, like the first sample after registration. *)
Theorem reset_network_io_restarts env s :
  let s1 := snd (reset_network_io s) in
  fst (reset_network_io s) = Ret tt /\
  network_io (self s1) = 0%Q /\
  baseline (self s1) = (None, None) /\
  identity (self s1) = identity (self s) /\
  network_io (self (snd (update_resource_usage env s1))) = 0%Q.
Proof.
  intros s1. repeat split. now apply update_resource_usage_first.
Qed.

(** ** Registration *)

(** X22.  The network mark of a registered process is its pid modulo
    65535: it always lies in 0 .. 65534, so it fits 16 bits, and it is not
    unique: two pids 65535 apart get the same mark. *)
Theorem MiningProcess_init_mark p process_name prio iface manager_initialized :
  0 <= mark (MiningProcess_init p process_name prio iface manager_initialized) < 65535 /\
  mark (MiningProcess_init (p + 65535) process_name prio iface manager_initialized)
    = mark (MiningProcess_init p process_name prio iface manager_initialized).
Proof.
  cbn [mark MiningProcess_init]. split.
  - apply Z.mod_pos_bound. lia.
  - replace (p + 65535) with (p + 1 * 65535) by lia. apply Z_mod_plus_full.
Qed.

(** ** Which processes count as GPU workers *)

(** X23.  [is_gpu_process] is a case-insensitive substring test: it
    answers true exactly when the lower-cased name of the process has
    [llmsengen] or [gpu_miner] somewhere inside it. *)
Theorem is_gpu_process_iff p :
  is_gpu_process p = true <->
  exists keyword pre post,
    keyword ∈ gpu_process_keywords /\
    lower (name p) = (pre ++ keyword ++ post)%string.
Proof.
  unfold is_gpu_process. rewrite existsb_exists. split.
  - intros (kw & Hin & H). apply contains_iff in H as (pre & post & H).
    exists kw, pre, post. split; [now apply list_elem_of_In | exact H].
  - intros (kw & pre & post & Hin & H). exists kw. split; [now apply list_elem_of_In|].
    apply contains_iff. now exists pre, post.
Qed.

(** * Properties of the GPUManager singleton *)

Ltac run_manager :=
  unfold GPUManager.GPUManager, GPUManager.GPUManager_new, GPUManager.GPUManager_init,
    GPUManager.initialize_nvml, GPUManager.shutdown_nvml, GPUManager.call, GPUManager.act,
    GPUManager.update, try_except, bind, lift, ret, raise, get, modify; simpl.

(** X24.  The first [GPUManager()] marks the instance initialised and
    ends with [gpu_initialized] true exactly when [nvmlInit] and
    [nvmlDeviceGetCount] both succeed.  An [NVMLError] from either call
    never leaves the constructor, and the constructor never calls
    [nvmlShutdown], also not when the device count fails after a
    successful [nvmlInit]. *)
Theorem GPUManager_first_construction env :
  let r := fst (GPUManager.GPUManager env no_manager) in
  let s := snd (GPUManager.GPUManager env no_manager) in
  (GPUManager._initialized <$> GPUManager._instance s) = Some true /\
  (GPUManager.gpu_initialized <$> GPUManager._instance s) = Some (nvml_available env) /\
  r <> Raise NVMLError /\
  GPUManager.NvmlShutdown ∉ GPUManager.actions s.
Proof.
  unfold nvml_available. run_manager.
  destruct (GPUManager.nvmlInit env) as [[]|]; simpl;
    try (repeat split; [discriminate | rewrite ?elem_of_cons, elem_of_nil; intuition discriminate]).
  destruct (GPUManager.nvmlDeviceGetCount env) as [n|[]]; simpl;
    (repeat split; [discriminate | rewrite ?elem_of_cons, elem_of_nil; intuition discriminate]).
Qed.

Lemma GPUManager_initialised env s o :
  GPUManager._instance s = Some o ->
  GPUManager._initialized o = true ->
  GPUManager.GPUManager env s = (Ret tt, s).
Proof.
  intros Ho Hi. run_manager. rewrite Ho. simpl. rewrite Ho, Hi. reflexivity.
Qed.

Lemma GPUManager_marks_initialised env s0 :
  exists o, GPUManager._instance (snd (GPUManager.GPUManager env s0)) = Some o /\
            GPUManager._initialized o = true.
Proof.
  destruct (GPUManager._instance s0) as [[[] g c]|] eqn:H0.
  - erewrite GPUManager_initialised by (exact H0 || reflexivity).
    simpl. rewrite H0. eauto.
  - run_manager. rewrite H0. simpl. rewrite H0. simpl.
    destruct (GPUManager.nvmlInit env) as [[]|]; simpl; rewrite ?H0; simpl; eauto.
    destruct (GPUManager.nvmlDeviceGetCount env) as [n|[]]; simpl; rewrite ?H0; simpl; eauto.
  - run_manager. rewrite H0. simpl.
    destruct (GPUManager.nvmlInit env) as [[]|]; simpl; eauto.
    destruct (GPUManager.nvmlDeviceGetCount env) as [n|[]]; simpl; eauto.
Qed.

(** X25.  NVML is probed at most once per process.  After one
    [GPUManager()], whatever it found and even if it raised, every later
    [GPUManager()] returns at once: it makes no SDK call, logs nothing
    and changes no attribute, whatever the SDK would answer by then. *)
Theorem GPUManager_constructed_again env1 env2 s0 :
  let s1 := snd (GPUManager.GPUManager env1 s0) in
  GPUManager.GPUManager env2 s1 = (Ret tt, s1).
Proof.
  destruct (GPUManager_marks_initialised env1 s0) as (o & Ho & Hi).
  exact (GPUManager_initialised env2 _ o Ho Hi).
Qed.

Lemma drop_length_app2 {A} (l x y : list A) :
  drop (length l) ((l ++ x) ++ y) = x ++ y.
Proof. now rewrite <- app_assoc, drop_app_length. Qed.

(** X26.  [shutdown_nvml] calls [nvmlShutdown] exactly when
    [gpu_initialized] is set, and it leaves the attributes as they are:
    the flag is not cleared, so the next [shutdown_nvml] calls
    [nvmlShutdown] again. *)
Theorem shutdown_nvml_keeps_flag env s o :
  GPUManager._instance s = Some o ->
  let s1 := snd (GPUManager.shutdown_nvml env s) in
  GPUManager._instance s1 = Some o /\
  sdk_actions (drop (length (GPUManager.actions s)) (GPUManager.actions s1)) =
    (if GPUManager.gpu_initialized o then [GPUManager.NvmlShutdown] else []) /\
  sdk_actions (drop (length (GPUManager.actions s1))
                 (GPUManager.actions (snd (GPUManager.shutdown_nvml env s1)))) =
    (if GPUManager.gpu_initialized o then [GPUManager.NvmlShutdown] else []).
Proof.
  intros Ho. run_manager. rewrite Ho. simpl.
  destruct (GPUManager.gpu_initialized o) eqn:Hg; simpl.
  - destruct (GPUManager.nvmlShutdown env) as [[]|]; simpl; rewrite Ho, Hg; simpl;
      rewrite ?drop_length_app2, ?drop_app_length; repeat split; try reflexivity.
  - rewrite Ho, Hg. simpl. rewrite drop_all. repeat split.
Qed.

Lemma shutdown_nvml_keeps_flag_witness :
  let s := snd (GPUManager.GPUManager nvml_ok no_manager) in
  let s1 := snd (GPUManager.shutdown_nvml nvml_ok s) in
  sdk_actions (drop (length (GPUManager.actions s)) (GPUManager.actions s1)) =
    [GPUManager.NvmlShutdown] /\
  sdk_actions (drop (length (GPUManager.actions s1))
                 (GPUManager.actions (snd (GPUManager.shutdown_nvml nvml_ok s1)))) =
    [GPUManager.NvmlShutdown].
Proof.
  exact (proj2 (shutdown_nvml_keeps_flag nvml_ok
                  (snd (GPUManager.GPUManager nvml_ok no_manager))
                  {| GPUManager._initialized := true; GPUManager.gpu_initialized := true;
                     GPUManager.gpu_count := Some 2 |} eq_refl)).
Defined.
